(** * sardem-sarsen: the pipeline orchestration and STAC catalog layer

    A shallow embedding of [src/sardem-sarsen.py].  Python strings are
    [string]; the dictionaries of pystac (assets, properties, extra fields)
    are [gmap string _]; the four coordinates of a bounding box are binary64
    floats.  The file system, the archives, pystac's reading of hrefs and the
    two numerical collaborators (sardem, sarsen) are an environment of
    oracles [Env]; the
    log, the staging directory and the sequence of external calls are the
    mutable [State] threaded through a small state-and-exception monad in
    which, as in Python, the state written before an exception survives it. *)

From Stdlib Require Import ZArith String Ascii List.
From Stdlib Require Import Floats.PrimFloat.
From stdpp Require Import gmap strings list.

Open Scope string_scope.
Open Scope Z_scope.
Open Scope nat_scope.
Open Scope list_scope.

#[local] Set Warnings "-inexact-float".

(** ** Python's [str] operations used by the program *)

Fixpoint str_mul (c : ascii) (n : nat) : string :=
  match n with
  | O => EmptyString
  | S k => String c (str_mul c k)
  end.

Fixpoint interleave (new s : string) : string :=
  match s with
  | EmptyString => EmptyString
  | String c s' => String c (new +:+ interleave new s')
  end.

(** [replace_from old new skip s]: the left-to-right scan of [str.replace]
    for a non-empty [old]; [skip] counts the characters of a match that are
    still to be consumed, so matches never overlap. *)
Fixpoint replace_from (old new : string) (skip : nat) (s : string) : string :=
  match s with
  | EmptyString => EmptyString
  | String c s' =>
      match skip with
      | S k => replace_from old new k s'
      | O =>
          if String.prefix old s
          then new +:+ replace_from old new (String.length old - 1) s'
          else String c (replace_from old new 0 s')
      end
  end.

(** [s.replace(old, new)]: every non-overlapping occurrence, leftmost first. *)
Definition str_replace (old new s : string) : string :=
  if String.eqb old "" then new +:+ interleave new s
  else replace_from old new 0 s.

(** ** [os.path] on POSIX ([posixpath]) *)

Module posixpath.

Definition sep : ascii := "/"%char.

Definition startswith_sep (p : string) : bool :=
  match p with
  | String c _ => Ascii.eqb c sep
  | EmptyString => false
  end.

Fixpoint endswith_sep (p : string) : bool :=
  match p with
  | EmptyString => false
  | String c EmptyString => Ascii.eqb c sep
  | String _ s => endswith_sep s
  end.

Definition isabs (p : string) : bool := startswith_sep p.

(** [join(a, b)]: an absolute [b] discards [a]. *)
Definition join (a b : string) : string :=
  if startswith_sep b then b
  else if String.eqb a "" || endswith_sep a then a +:+ b
  else a +:+ "/" +:+ b.

(** [p.rfind(sep) + 1], scanning with the position [pos]. *)
Fixpoint rfind_sep_from (p : string) (pos last : nat) : nat :=
  match p with
  | EmptyString => last
  | String c s =>
      rfind_sep_from s (S pos) (if Ascii.eqb c sep then S pos else last)
  end.

Definition rfind_sep1 (p : string) : nat := rfind_sep_from p 0 0.

Definition basename (p : string) : string :=
  let i := rfind_sep1 p in
  substring i (String.length p - i) p.

(** [head.rstrip(sep)] *)
Fixpoint rstrip_sep (p : string) : string :=
  match p with
  | EmptyString => EmptyString
  | String c s =>
      match rstrip_sep s with
      | EmptyString =>
          if Ascii.eqb c sep then EmptyString else String c EmptyString
      | r => String c r
      end
  end.

Definition dirname (p : string) : string :=
  let i := rfind_sep1 p in
  let head := substring 0 i p in
  if negb (String.eqb head "")
     && negb (String.eqb head (str_mul sep (String.length head)))
  then rstrip_sep head
  else head.

(** [p.split(sep)] *)
Fixpoint split_sep (p : string) : list string :=
  match p with
  | EmptyString => [EmptyString]
  | String c s =>
      if Ascii.eqb c sep then EmptyString :: split_sep s
      else match split_sep s with
           | x :: xs => String c x :: xs
           | [] => [String c EmptyString]
           end
  end.

Definition is_nil {A} (l : list A) : bool :=
  match l with [] => true | _ => false end.

(** One turn of the loop of [normpath] over the components. *)
Definition norm_step (initial_slashes : nat) (new_comps : list string)
    (comp : string) : list string :=
  if String.eqb comp "" || String.eqb comp "." then new_comps
  else if negb (String.eqb comp "..")
          || (Nat.eqb initial_slashes 0 && is_nil new_comps)
          || match last new_comps with
             | Some l => String.eqb l ".."
             | None => false
             end
       then new_comps ++ [comp]
       else removelast new_comps.

Definition normpath (path : string) : string :=
  if String.eqb path "" then "."
  else
    let initial_slashes :=
      if startswith_sep path
      then if String.prefix "//" path && negb (String.prefix "///" path)
           then 2 else 1
      else 0 in
    let comps := fold_left (norm_step initial_slashes) (split_sep path) [] in
    let p := str_mul sep initial_slashes +:+ String.concat "/" comps in
    if String.eqb p "" then "." else p.

(** [abspath(path)] in a process whose working directory is [cwd]. *)
Definition abspath (cwd path : string) : string :=
  normpath (if isabs path then path else join cwd path).

Definition nonempty_comps (p : string) : list string :=
  filter (fun x => x ≠ "") (split_sep p).

Fixpoint strip_common (a b : list string) : list string * list string :=
  match a, b with
  | x :: a', y :: b' =>
      if String.eqb x y then strip_common a' b' else (a, b)
  | _, _ => (a, b)
  end.

(** [relpath(path, start)] for a non-empty [path]. *)
Definition relpath (cwd path start : string) : string :=
  let start_list := nonempty_comps (abspath cwd start) in
  let path_list := nonempty_comps (abspath cwd path) in
  let '(start_rest, path_rest) := strip_common start_list path_list in
  let rel_list := map (fun _ => "..") start_rest ++ path_rest in
  match rel_list with
  | [] => "."
  | c :: cs => fold_left join cs c
  end.

End posixpath.

(** ** The STAC data model (pystac objects as records) *)

(** A JSON scalar held in a [properties] or [extra_fields] dictionary. *)
Inductive jvalue :=
| JStr (s : string)
| JInt (n : Z)
| JNum (x : float)
| JBool (b : bool)
| JNull.

Record Asset := mkAsset {
  asset_href : string;
  asset_title : option string;
  asset_description : option string;
  asset_media_type : option string;
  asset_roles : option (list string);
  asset_extra_fields : gmap string jvalue }.

(** A GeoJSON geometry: its type and its rings of [lon, lat] positions. *)
Record Geometry := mkGeometry {
  geo_type : string;
  geo_coordinates : list (list (list float)) }.

Record Item := mkItem {
  item_id : string;
  item_bbox : option (list float);
  item_geometry : option Geometry;
  item_properties : gmap string jvalue;
  item_assets : gmap string Asset;
  item_self_href : option string }.

Record Link := mkLink {
  link_rel : string;
  link_target : string }.

Inductive CatalogType := SELF_CONTAINED | ABSOLUTE_PUBLISHED | RELATIVE_PUBLISHED.

Record Catalog := mkCatalog {
  cat_id : string;
  cat_description : string;
  cat_href : option string;
  cat_type : option CatalogType;
  cat_links : list Link;
  cat_items : list Item }.

(** The dataclass [Args].  [stac_catalog_folder] is annotated [str] but holds
    whatever argparse produced: [None] when the option is not given. *)
Record Args := mkArgs {
  stac_catalog_folder : option string;
  bbox : list float;
  stac_asset_name : string;
  out_dir : string }.

(** A command line on which each option stands at most once: the version
    flag, the three string options each with its value, and [--bbox] with
    any number of values that read as floats.  One field per [add_argument];
    [cli_bbox_precedes_version] tells, when both are given, that [--bbox]
    stands before the version flag (argparse handles options in the order
    they stand in). *)
Record RawCli := mkRawCli {
  cli_version : bool;
  cli_bbox_precedes_version : bool;
  cli_stac_catalog_folder : option string;
  cli_bbox : option (list float);
  cli_stac_asset_name : option string;
  cli_out_dir : option string }.

(** ** Exceptions, log records, external calls *)

(** The classes derived from [Exception] that occur in a run. *)
Inductive exc :=
| TypeError (msg : string)
| AttributeError (msg : string)
| IndexError (msg : string)
| KeyError (key : string)
| ValueError (msg : string)
| OSError (msg : string)
| LibraryError (msg : string).

(** What can leave a function: an [Exception], which [except Exception]
    catches, or [SystemExit] (argparse), which it does not. *)
Inductive raised :=
| Exc (e : exc)
| SystemExit (code : Z).

Definition exc_str (e : exc) : string :=
  match e with
  | TypeError m | AttributeError m | IndexError m | KeyError m
  | ValueError m | OSError m | LibraryError m => m
  end.

Inductive Level := INFO | WARNING | ERROR.

Record LogRecord := mkLog { log_level : Level; log_message : string }.

(** The calls that leave the program, in the order they are made. *)
Inductive Event :=
| EvOpen (path : string)
| EvDownloadAndStitch (dem_file : string) (box : list float)
| EvZipFile (zip_file : string)
| EvMakedirs (dir : string)
| EvExtractAll (zip_file dir : string)
| EvListdir (dir : string)
| EvSentinel1SarProduct (s1_file : string)
| EvTerrainCorrection (s1_file output_file dem_file : string)
| EvGetsize (path : string)
| EvSave (catalog : Catalog).

(** What opening and extracting an archive does. *)
Inductive ZipOutcome :=
| ZipUnreadable (e : exc)
| ZipMembers (names : list string) (fault : option exc).

(** pystac's handling of hrefs ([pystac.utils] and the self href an object
    stores).  pystac reads an href as a URL and its rules changed between
    releases; the program only hands hrefs to it, so the four functions are
    part of the environment: whether an href is absolute, an href made
    relative to the document at a start href, an href made absolute against
    it, and the self href an object keeps when it is given one. *)
Record PystacLib := mkPystacLib {
  lib_is_absolute_href : string -> bool;
  lib_make_relative_href : string -> string -> string;
  lib_make_absolute_href : string -> string -> string;
  lib_self_href : string -> string }.

(** The world the program runs in.  Each field answers one external call;
    the documents, archives and collaborators do not change during a run. *)
Record Env := mkEnv {
  cwd : string;
  read_catalog : string -> exc + Catalog;
  read_item : string -> exc + Item;
  download_and_stitch : string -> list float -> option exc;
  zip_archive : string -> ZipOutcome;
  makedirs : string -> option exc;
  listdir_order : list string -> list string;
  sentinel1_sar_product : string -> option exc;
  terrain_correction : string -> string -> string -> option exc;
  getsize : string -> exc + Z;
  catalog_save : Catalog -> option exc;
  pystac : PystacLib }.

(** What a run changes: the log, the entries of the staging directory
    [temp_extract], and the external calls made so far. *)
Record State := mkState {
  st_log : list LogRecord;
  st_staging : list string;
  st_trace : list Event }.

(** ** The monad of the program: state, and exceptions that keep the state *)

Inductive result (A : Type) :=
| Ok (a : A)
| Raise (e : raised).
Arguments Ok {A} a.
Arguments Raise {A} e.

Definition M (A : Type) : Type := State -> result A * State.

Definition ret {A} (a : A) : M A := fun st => (Ok a, st).

Definition bind {A B} (m : M A) (k : A -> M B) : M B :=
  fun st =>
    match m st with
    | (Ok a, st') => k a st'
    | (Raise e, st') => (Raise e, st')
    end.

Definition raise {A} (e : exc) : M A := fun st => (Raise (Exc e), st).

Definition sys_exit {A} (code : Z) : M A := fun st => (Raise (SystemExit code), st).

(** [try: body  except Exception as e: handler e] *)
Definition try_except {A} (body : M A) (handler : exc -> M A) : M A :=
  fun st =>
    match body st with
    | (Raise (Exc e), st') => handler e st'
    | r => r
    end.

(** The outcome of [m] as a value: the exception it raised, or its result. *)
Definition attempt {A} (m : M A) : M (exc + A) :=
  try_except (bind m (fun a => ret (inr a))) (fun e => ret (inl e)).

Definition logger (l : Level) (msg : string) : M unit :=
  fun st =>
    (Ok tt, mkState (st_log st ++ [mkLog l msg]) (st_staging st) (st_trace st)).

Definition emit (ev : Event) : M unit :=
  fun st =>
    (Ok tt, mkState (st_log st) (st_staging st) (st_trace st ++ [ev])).

Definition get_staging : M (list string) := fun st => (Ok (st_staging st), st).

Definition put_staging (d : list string) : M unit :=
  fun st => (Ok tt, mkState (st_log st) d (st_trace st)).

Definition lift_sum {A} (r : exc + A) : M A :=
  match r with
  | inl e => raise e
  | inr a => ret a
  end.

Definition lift_fault (r : option exc) : M unit :=
  match r with
  | Some e => raise e
  | None => ret tt
  end.

Declare Scope prog_scope.
Delimit Scope prog_scope with prog.
Notation "x <- c1 ;; c2" := (bind c1 (fun x => c2))
  (at level 100, c1 at next level, right associativity) : prog_scope.
Notation "c1 ;; c2" := (bind c1 (fun _ => c2))
  (at level 100, right associativity) : prog_scope.
Open Scope prog_scope.

(** The decorator [logtime]: after [func] returns, one INFO record with its
    name (the elapsed seconds are not part of the model).  When [func]
    raises, nothing is logged. *)
Definition logtime {A} (name : string) (func : M A) : M A :=
  r <- func ;;
  logger INFO (name +:+ ": %.1f seconds") ;;
  ret r.

(** ** The external calls, each recorded in the trace *)

Section Program.

Variable env : Env.

(** [with open(p) as f: json.load(f)] followed by [Catalog.from_dict]. *)
Definition open_catalog (json_file : string) : M Catalog :=
  emit (EvOpen json_file) ;;
  lift_sum (read_catalog env json_file).

(** [with open(p) as f: json.load(f)] followed by [Item.from_dict]. *)
Definition open_item (json_file : string) : M Item :=
  emit (EvOpen json_file) ;;
  lift_sum (read_item env json_file).

Definition cop_dem_download_and_stitch (dem_file : string)
    (box : list float) : M unit :=
  emit (EvDownloadAndStitch dem_file box) ;;
  lift_fault (download_and_stitch env dem_file box).

Definition sarsen_Sentinel1SarProduct (s1_file : string) : M unit :=
  emit (EvSentinel1SarProduct s1_file) ;;
  lift_fault (sentinel1_sar_product env s1_file).

Definition sarsen_terrain_correction (s1_file output_file dem_file : string)
    : M unit :=
  emit (EvTerrainCorrection s1_file output_file dem_file) ;;
  lift_fault (terrain_correction env s1_file output_file dem_file).

Definition os_path_getsize (path : string) : M Z :=
  emit (EvGetsize path) ;;
  lift_sum (getsize env path).

Definition os_makedirs (dir : string) : M unit :=
  emit (EvMakedirs dir) ;;
  lift_fault (makedirs env dir).

(** The components of a member's name that [ZipFile.extractall] writes: it
    drops the empty, [.] and [..] components. *)
Definition member_parts (member : string) : list string :=
  List.filter
    (fun x => negb (String.eqb x "" || String.eqb x "." || String.eqb x ".."))
    (posixpath.split_sep member).

(** The first component of an archive member's name that is written: the
    entry it creates at the top of the directory it is extracted into. *)
Definition top_entry (member : string) : option string :=
  head (member_parts member).

(** Adding an entry to a directory that may already hold it. *)
Definition add_entry (dir : list string) (name : string) : list string :=
  if existsb (String.eqb name) dir then dir else dir ++ [name].

(** [zipfile.ZipFile(zip_file, "r")]: the archive's members, or the
    exception of an unreadable or corrupt file. *)
Definition zipfile_ZipFile (zip_file : string)
    : M (list string * option exc) :=
  emit (EvZipFile zip_file) ;;
  match zip_archive env zip_file with
  | ZipUnreadable e => raise e
  | ZipMembers names fault => ret (names, fault)
  end.

(** [zip_ref.extractall(temp_dir)]: the members written land in the
    staging directory, next to what it already holds. *)
Definition extractall (zip_file temp_dir : string)
    (zip_ref : list string * option exc) : M unit :=
  emit (EvExtractAll zip_file temp_dir) ;;
  d <- get_staging ;;
  put_staging (fold_left add_entry (omap top_entry (fst zip_ref)) d) ;;
  lift_fault (snd zip_ref).

(** [os.listdir(temp_dir)]: the entries, in the order the file system
    gives them. *)
Definition os_listdir (temp_dir : string) : M (list string) :=
  emit (EvListdir temp_dir) ;;
  d <- get_staging ;;
  ret (listdir_order env d).

(** ** pystac *)

Definition Asset_clone (a : Asset) : Asset :=
  mkAsset (asset_href a) (asset_title a) (asset_description a)
    (asset_media_type a) (asset_roles a) (asset_extra_fields a).

Definition Item_clone (i : Item) : Item :=
  mkItem (item_id i) (item_bbox i) (item_geometry i) (item_properties i)
    (Asset_clone <$> item_assets i) (item_self_href i).

(** [pystac.utils.is_absolute_href(href)] *)
Definition is_absolute_href (h : string) : bool :=
  lib_is_absolute_href (pystac env) h.

(** [pystac.utils.make_relative_href(source_href, start_href)] *)
Definition make_relative_href (source_href start_href : string) : string :=
  lib_make_relative_href (pystac env) source_href start_href.

(** [pystac.utils.make_absolute_href(source_href, start_href)] *)
Definition make_absolute_href (source_href start_href : string) : string :=
  lib_make_absolute_href (pystac env) source_href start_href.

(** [get_self_href()] after [set_self_href(href)] *)
Definition stored_self_href (href : string) : string :=
  lib_self_href (pystac env) href.

Definition set_asset_href (h : string) (a : Asset) : Asset :=
  mkAsset h (asset_title a) (asset_description a) (asset_media_type a)
    (asset_roles a) (asset_extra_fields a).

(** [Item.set_self_href(href)]: when the item had a self href, the relative
    asset hrefs are kept valid against the new one. *)
Definition Item_set_self_href (i : Item) (href : string) : Item :=
  let new_href := stored_self_href href in
  let rebase (a : Asset) : Asset :=
    match item_self_href i with
    | Some prev_href =>
        if is_absolute_href (asset_href a) then a
        else set_asset_href
               (make_relative_href
                  (make_absolute_href (asset_href a) prev_href) new_href) a
    | None => a
    end in
  mkItem (item_id i) (item_bbox i) (item_geometry i) (item_properties i)
    (rebase <$> item_assets i) (Some new_href).

(** [Item.make_asset_hrefs_relative()] *)
Definition Item_make_asset_hrefs_relative (i : Item) : M Item :=
  match item_self_href i with
  | Some self_href =>
      let relative (a : Asset) : Asset :=
        if is_absolute_href (asset_href a)
        then set_asset_href (make_relative_href (asset_href a) self_href) a
        else a in
      ret (mkItem (item_id i) (item_bbox i) (item_geometry i)
             (item_properties i) (relative <$> item_assets i)
             (item_self_href i))
  | None =>
      if bool_decide (map_Exists (fun _ a => is_absolute_href (asset_href a) = true)
                       (item_assets i))
      then raise (LibraryError "Cannot make asset HREFs relative if no self_href is set.")
      else ret i
  end.

(** [Catalog.add_item(item)] *)
Definition Catalog_add_item (c : Catalog) (i : Item) : Catalog :=
  mkCatalog (cat_id c) (cat_description c) (cat_href c) (cat_type c)
    (cat_links c) (cat_items c ++ [i]).

(** [Catalog.save()]: the catalog document and its item documents are
    written, once. *)
Definition Catalog_save (c : Catalog) : M unit :=
  emit (EvSave c) ;;
  lift_fault (catalog_save env c).

End Program.

(** ** The program *)

Section Pipeline.

Variable env : Env.

(** The [for link in catalog.links] loop of [get_s1_grd_path].  The list
    [s1_grd_paths] is created before the [try], so what was appended to it
    when an exception ends the loop is still there: the loop returns the
    list together with that exception. *)
Fixpoint for_links (json_file stac_asset_name : string) (links : list Link)
    (s1_grd_paths : list string) : M (list string * option exc) :=
  match links with
  | [] => ret (s1_grd_paths, None)
  | link :: rest =>
      if String.eqb (link_rel link) "item" then
        let absolute_link_href :=
          posixpath.normpath
            (posixpath.join (posixpath.dirname json_file) (link_target link)) in
        r <- attempt (open_item env absolute_link_href) ;;
        match r with
        | inl e => ret (s1_grd_paths, Some e)
        | inr item =>
            match item_assets item !! stac_asset_name with
            | Some a =>
                for_links json_file stac_asset_name rest
                  (s1_grd_paths ++
                   [posixpath.normpath
                      (posixpath.join (posixpath.dirname absolute_link_href)
                         (asset_href a))])
            | None =>
                logger WARNING
                  ("No '" +:+ stac_asset_name +:+ "' asset found in item "
                   +:+ absolute_link_href) ;;
                for_links json_file stac_asset_name rest s1_grd_paths
            end
        end
      else for_links json_file stac_asset_name rest s1_grd_paths
  end.

Definition get_s1_grd_path (json_file stac_asset_name : string)
    : M (list string) :=
  logtime "get_s1_grd_path" (
    logger INFO "Fetching S1 GRD product paths from the STAC catalog..." ;;
    r <- attempt (open_catalog env json_file) ;;
    match r with
    | inl e =>
        logger ERROR ("Error fetching S1 GRD product paths: " +:+ exc_str e) ;;
        ret []
    | inr catalog =>
        match cat_links catalog with
        | [] =>
            logger WARNING "No links found in the STAC catalog." ;;
            ret []
        | links =>
            r <- for_links json_file stac_asset_name links [] ;;
            match snd r with
            | Some e =>
                logger ERROR
                  ("Error fetching S1 GRD product paths: " +:+ exc_str e) ;;
                ret (fst r)
            | None => ret (fst r)
            end
        end
    end).

Definition get_dem (box : list float) (out_dir : string) : M string :=
  logtime "get_dem" (
    logger INFO "Downloading DEM from Copernicus..." ;;
    let dem_file := posixpath.join out_dir "dem.tif" in
    try_except
      (cop_dem_download_and_stitch env dem_file box ;;
       ret dem_file)
      (fun e =>
         logger ERROR ("Error downloading DEM: " +:+ exc_str e) ;;
         ret "")).

(** The path [run_sarsen] writes its raster to. *)
Definition sarsen_output_file (s1_file output_dir : string) : string :=
  posixpath.join output_dir
    (str_replace ".SAFE" "_sarsen_output.tif" (posixpath.basename s1_file)).

Definition run_sarsen (s1_file dem_file output_dir : string) : M string :=
  logtime "run_sarsen" (
    logger INFO "Running SARsen on the S1 GRD product and the DEM..." ;;
    let output_file := sarsen_output_file s1_file output_dir in
    try_except
      (sarsen_Sentinel1SarProduct env s1_file ;;
       sarsen_terrain_correction env s1_file output_file dem_file ;;
       ret output_file)
      (fun e =>
         logger ERROR ("Error running SARsen: " +:+ exc_str e) ;;
         ret "")).

Definition extract_zip (zip_file : string) : M string :=
  logger INFO ("Extracting zip file: " +:+ zip_file) ;;
  try_except
    (zip_ref <- zipfile_ZipFile env zip_file ;;
     let temp_dir := posixpath.abspath (cwd env) "temp_extract" in
     os_makedirs env temp_dir ;;
     extractall zip_file temp_dir zip_ref ;;
     extracted_files <- os_listdir env temp_dir ;;
     match extracted_files with
     | first :: _ => ret (posixpath.join temp_dir first)
     | [] =>
         logger WARNING "No files extracted from zip file." ;;
         ret ""
     end)
    (fun e =>
       logger ERROR ("Error extracting zip file: " +:+ exc_str e) ;;
       ret "").

(** [parser.parse_args()] on the options given, then the [Args] built from
    the namespace.  The options are handled in the order they stand in: the
    version flag prints and exits with status 0 unless a [--bbox] with fewer
    than four values stands before it, which is an argparse error (exit
    status 2) at that point; values beyond the fourth and a missing required
    option are errors only once all options are read; an option that is
    neither required nor given takes its default. *)
Definition parse_args (raw : RawCli) : M Args :=
  if cli_version raw then
    match cli_bbox raw with
    | Some box =>
        if cli_bbox_precedes_version raw && Nat.ltb (length box) 4
        then sys_exit 2
        else sys_exit 0
    | None => sys_exit 0
    end
  else
    match cli_bbox raw, cli_out_dir raw with
    | Some box, Some out =>
        if Nat.eqb (length box) 4
        then ret (mkArgs (cli_stac_catalog_folder raw) box
                    (default "PRODUCT" (cli_stac_asset_name raw)) out)
        else sys_exit 2
    | _, _ => sys_exit 2
    end.

Definition bbox_to_geojson (box : list float) : exc + Geometry :=
  match box with
  | [min_lon; min_lat; max_lon; max_lat] =>
      inr (mkGeometry "Polygon"
             [[ [min_lon; min_lat];
                [max_lon; min_lat];
                [max_lon; max_lat];
                [min_lon; max_lat];
                [min_lon; min_lat] ]])
  | _ => inl (ValueError "wrong number of values to unpack (expected 4)")
  end.

Definition retrieve_stac_item_by_rel (stac_catalog_file stac_item_rel : string)
    : M (option Item) :=
  try_except
    (catalog <- open_catalog env stac_catalog_file ;;
     match cat_links catalog with
     | [] =>
         logger WARNING "No links found in the STAC catalog." ;;
         ret None
     | links =>
         match find (fun link => String.eqb (link_rel link) stac_item_rel) links with
         | Some link =>
             let absolute_link_href :=
               posixpath.normpath
                 (posixpath.join (posixpath.dirname stac_catalog_file)
                    (link_target link)) in
             item <- open_item env absolute_link_href ;;
             ret (Some item)
         | None => ret None
         end
     end)
    (fun e =>
       logger ERROR ("Error retrieving the STAC item: " +:+ exc_str e) ;;
       ret None).

(** Lines 340-346: the clone of the asset [asset_name], pointed at the
    produced file of [size] bytes at [output_stac_asset_path]. *)
Definition output_asset (original : Asset) (output_stac_asset_path : string)
    (size : Z) : Asset :=
  let output_stac_asset := Asset_clone original in
  mkAsset output_stac_asset_path
    (Some "output")
    (asset_description output_stac_asset)
    (Some "image/tiff")
    (Some ["data"])
    (<["file:size" := JInt size]> (asset_extra_fields output_stac_asset)).

Definition create_stage_out_catalog (output_dir : string)
    (output_stac_item : Item) (box : list float)
    (asset_name asset_path : string) : M Catalog :=
  let output_stac_item_path :=
    posixpath.abspath (cwd env)
      (posixpath.join (posixpath.join output_dir (item_id output_stac_item))
         (item_id output_stac_item +:+ ".json")) in
  logger INFO "Creating STAC item {output_stac_item_path}" ;;
  let i1 := Item_set_self_href env output_stac_item output_stac_item_path in
  let i2 :=
    mkItem (item_id i1) (Some box) (item_geometry i1)
      (<["title" := JStr (posixpath.basename asset_path)]> (item_properties i1))
      (item_assets i1) (item_self_href i1) in
  geometry <- lift_sum (bbox_to_geojson box) ;;
  let i3 :=
    mkItem (item_id i2) (item_bbox i2) (Some geometry) (item_properties i2)
      (item_assets i2) (item_self_href i2) in
  original <- match item_assets i3 !! asset_name with
              | Some a => ret a
              | None => raise (KeyError asset_name)
              end ;;
  let output_stac_asset_path := posixpath.abspath (cwd env) asset_path in
  size <- os_path_getsize env output_stac_asset_path ;;
  let output_stac_asset := output_asset original output_stac_asset_path size in
  let i4 :=
    mkItem (item_id i3) (item_bbox i3) (item_geometry i3) (item_properties i3)
      {[ "output" := output_stac_asset ]} (item_self_href i3) in
  i5 <- Item_make_asset_hrefs_relative env i4 ;;
  let output_stac_catalog_path := posixpath.join output_dir "catalog.json" in
  logger INFO ("Creating STAC catalog " +:+ output_stac_catalog_path) ;;
  let output_stac_catalog :=
    Catalog_add_item
      (mkCatalog "SARsen output catalog" "SARsen output catalog"
         (Some (stored_self_href env output_stac_catalog_path))
         (Some SELF_CONTAINED) [] [])
      i5 in
  Catalog_save env output_stac_catalog ;;
  logger INFO "Stage out catalog created" ;;
  ret output_stac_catalog.

(** Step 4 of [main]: the loop over the product paths. *)
Fixpoint for_products (dem_file out_dir : string) (s1_grd_paths : list string)
    (output_files : list string) : M (list string) :=
  match s1_grd_paths with
  | [] => ret output_files
  | s1_grd_path :: rest =>
      extracted_s1_grd_path <- extract_zip s1_grd_path ;;
      if negb (String.eqb extracted_s1_grd_path "") then
        o <- run_sarsen extracted_s1_grd_path dem_file out_dir ;;
        for_products dem_file out_dir rest (output_files ++ [o])
      else
        logger ERROR ("Error extracting zip file for " +:+ s1_grd_path) ;;
        for_products dem_file out_dir rest output_files
  end.

Definition main (raw : RawCli) : M unit :=
  logtime "main" (
    args <- parse_args raw ;;
    catalog_path <-
      match stac_catalog_folder args with
      | Some folder => ret (posixpath.join folder "catalog.json")
      | None =>
          raise (TypeError
            "expected str, bytes or os.PathLike object, not NoneType")
      end ;;
    s1_grd_paths <- get_s1_grd_path catalog_path (stac_asset_name args) ;;
    dem_file <- get_dem (bbox args) (out_dir args) ;;
    output_files <- for_products dem_file (out_dir args) s1_grd_paths [] ;;
    logger INFO "SARSEN process completed for all S1 GRD products." ;;
    retrieved <- retrieve_stac_item_by_rel catalog_path "item" ;;
    output_stac_item <-
      match retrieved with
      | Some item => ret (Item_clone item)
      | None => raise (AttributeError "'NoneType' object has no attribute 'clone'")
      end ;;
    first <-
      match output_files with
      | f :: _ => ret f
      | [] => raise (IndexError "list index out of range")
      end ;;
    create_stage_out_catalog (out_dir args) output_stac_item (bbox args)
      (stac_asset_name args) first ;;
    ret tt).

End Pipeline.

(** ** Reading a run *)

(** The archives opened, the products handed to sarsen: two views of a trace. *)
Definition zip_opened (tr : list Event) : list string :=
  omap (fun ev => match ev with EvZipFile p => Some p | _ => None end) tr.

Definition sarsen_products (tr : list Event) : list string :=
  omap (fun ev => match ev with EvSentinel1SarProduct p => Some p | _ => None end) tr.

Definition logged (l : Level) (st : State) : Prop :=
  exists msg, In (mkLog l msg) (st_log st).

(** [contains pat s]: [pat] occurs in [s] (Python's [pat in s]). *)
Fixpoint contains (pat s : string) : bool :=
  String.prefix pat s ||
  match s with
  | EmptyString => false
  | String _ s' => contains pat s'
  end.

(** [occurs c p]: the character [c] is one of [p]. *)
Fixpoint occurs (c : ascii) (p : string) : bool :=
  match p with
  | EmptyString => false
  | String a p' => Ascii.eqb c a || occurs c p'
  end.

(** Where an item link of the catalog at [json_file] points. *)
Definition item_document (json_file : string) (link : Link) : string :=
  posixpath.normpath
    (posixpath.join (posixpath.dirname json_file) (link_target link)).

(** The product path an item document at [item_path] gives for its asset. *)
Definition asset_document (item_path : string) (a : Asset) : string :=
  posixpath.normpath
    (posixpath.join (posixpath.dirname item_path) (asset_href a)).

(** What the loop of [get_s1_grd_path] has appended when it stops, and the
    exception that stopped it: the loop read off the documents alone. *)
Fixpoint links_outcome (env : Env) (json_file stac_asset_name : string)
    (links : list Link) : list string * option exc :=
  match links with
  | [] => ([], None)
  | link :: rest =>
      if String.eqb (link_rel link) "item" then
        match read_item env (item_document json_file link) with
        | inl e => ([], Some e)
        | inr item =>
            let r := links_outcome env json_file stac_asset_name rest in
            match item_assets item !! stac_asset_name with
            | Some a =>
                (asset_document (item_document json_file link) a :: fst r, snd r)
            | None => r
            end
        end
      else links_outcome env json_file stac_asset_name rest
  end.

(** Every item link before [link] can be read. *)
Definition readable_before (env : Env) (P : string) (pre : list Link) : Prop :=
  forall l, In l pre -> link_rel l = "item" ->
            exists i, read_item env (item_document P l) = inr i.

(** What [get_s1_grd_path] returns, read off the documents alone. *)
Definition discovered_paths (env : Env) (json_file stac_asset_name : string)
    : list string :=
  match read_catalog env json_file with
  | inl _ => []
  | inr catalog => fst (links_outcome env json_file stac_asset_name (cat_links catalog))
  end.

(** The same environment in a process started from another directory. *)
Definition with_cwd (dir : string) (env : Env) : Env :=
  mkEnv dir (read_catalog env) (read_item env) (download_and_stitch env)
    (zip_archive env) (makedirs env) (listdir_order env)
    (sentinel1_sar_product env) (terrain_correction env) (getsize env)
    (catalog_save env) (pystac env).

(** ** Concrete worlds *)

(** pystac's href functions on plain local paths, that is paths without the
    characters a URL gives a meaning to ([#], [?], [;], a scheme): the
    relative path from the directory of the start document, written with a
    leading [./] unless it starts with [../]; a relative href joined to that
    directory; and the absolute path as the stored self href. *)
Definition plain_make_relative_href (dir source_href start_href : string) : string :=
  let relpath :=
    posixpath.relpath dir source_href (posixpath.dirname start_href) in
  if String.prefix "../" relpath then relpath else "./" +:+ relpath.

Definition plain_make_absolute_href (dir source_href start_href : string) : string :=
  if posixpath.isabs source_href then source_href
  else posixpath.abspath dir
         (posixpath.join (posixpath.dirname start_href) source_href).

Definition plain_pystac (dir : string) : PystacLib :=
  mkPystacLib posixpath.isabs (plain_make_relative_href dir)
    (plain_make_absolute_href dir) (posixpath.abspath dir).

Fixpoint assoc {A} (k : string) (l : list (string * A)) : option A :=
  match l with
  | [] => None
  | (k', v) :: rest => if String.eqb k k' then Some v else assoc k rest
  end.

Definition no_such_file (path : string) : exc :=
  OSError ("[Errno 2] No such file or directory: '" +:+ path +:+ "'").

(** A world given by its documents, archives and file sizes, in a process
    started in [/w]; sarsen fails on the products listed in [bad_products]. *)
Definition world (catalogs : list (string * Catalog))
    (items : list (string * Item)) (zips : list (string * ZipOutcome))
    (bad_products : list string) (sizes : list (string * Z)) : Env :=
  mkEnv "/w"
    (fun p => match assoc p catalogs with Some c => inr c | None => inl (no_such_file p) end)
    (fun p => match assoc p items with Some i => inr i | None => inl (no_such_file p) end)
    (fun _ _ => None)
    (fun p => match assoc p zips with Some z => z | None => ZipUnreadable (no_such_file p) end)
    (fun _ => None)
    (fun d => d)
    (fun p => if existsb (String.eqb p) bad_products
              then Some (LibraryError "not a Sentinel-1 product") else None)
    (fun _ _ _ => None)
    (fun p => match assoc p sizes with Some n => inr n | None => inl (no_such_file p) end)
    (fun _ => None)
    (plain_pystac "/w").

Definition initial_state : State := mkState [] [] [].

Definition product_asset (h : string) : Asset :=
  mkAsset h (Some "S1 GRD") (Some "Sentinel-1 GRD product") (Some "application/zip")
    (Some ["data"; "archive"]) {[ "processing:level" := JStr "L1" ]}.

Definition s1_item (name h : string) : Item :=
  mkItem name None None {[ "title" := JStr name ]}
    {[ "PRODUCT" := product_asset h; "thumbnail" := product_asset "./quick-look.png" ]}
    None.

Definition input_catalog (links : list Link) : Catalog :=
  mkCatalog "catalog" "input" None None links [].

(** The layout of the spec's link-resolution example. *)
Definition nested_world : Env :=
  world
    [("/a/b/catalog.json",
      input_catalog [mkLink "root" "./catalog.json"; mkLink "item" "../c/item.json"])]
    [("/a/c/item.json", s1_item "S1A" "./product.zip")]
    [] [] [].

(** A catalog with two item links, the second to a document that is not there. *)
Definition broken_item_world : Env :=
  world
    [("/in/catalog.json",
      input_catalog [mkLink "item" "./i1.json"; mkLink "item" "./i2.json"])]
    [("/in/i1.json", s1_item "S1A" "p1.zip")]
    [] [] [].

(** Three products; the second archive is not a zip file. *)
Definition three_products_world : Env :=
  world [] []
    [("/in/p1.zip", ZipMembers ["A.SAFE/manifest.safe"; "A.SAFE/measurement/vv.tiff"] None);
     ("/in/p2.zip", ZipUnreadable (LibraryError "File is not a zip file"));
     ("/in/p3.zip", ZipMembers ["C.SAFE/manifest.safe"] None)]
    [] [].

(** One product whose archive extracts and on which sarsen fails. *)
Definition failing_correction_world : Env :=
  world
    [("/in/catalog.json", input_catalog [mkLink "item" "./i1.json"])]
    [("/in/i1.json", s1_item "S1A" "p1.zip")]
    [("/in/p1.zip", ZipMembers ["A.SAFE/manifest.safe"] None)]
    ["/w/temp_extract/A.SAFE"]
    [].

(** An archive with one product, then a valid archive with no entry. *)
Definition empty_archive_world : Env :=
  world [] []
    [("/in/a.zip", ZipMembers ["A.SAFE/manifest.safe"] None);
     ("/in/empty.zip", ZipMembers [] None)]
    [] [].

(** One product processed to the end; the raster has 1234 bytes. *)
Definition complete_world : Env :=
  world
    [("/in/catalog.json", input_catalog [mkLink "item" "./i1.json"])]
    [("/in/i1.json", s1_item "S1A" "p1.zip")]
    [("/in/p1.zip", ZipMembers ["A.SAFE/manifest.safe"] None)]
    []
    [("/out/A_sarsen_output.tif", 1234%Z)].

(** A catalog document that cannot be read. *)
Definition unreadable_catalog_world : Env := world [] [] [] [] [].

Definition spec_bbox : list float :=
  [(-118.068)%float; 34.222%float; (-118.058)%float; 34.228%float].

Definition cli_for (folder : option string) : RawCli :=
  mkRawCli false false folder (Some spec_bbox) None (Some "/out").

(** ** More readings of a run *)

(** [st'] is [st] with the records [lg] added to the log and the calls [evs]
    to the trace. *)
Definition extends (st st' : State) (lg : list LogRecord) (evs : list Event)
    : Prop :=
  st_log st' = st_log st ++ lg /\ st_trace st' = st_trace st ++ evs.

(** The catalogs saved, the DEM downloads, the terrain corrections and the
    file sizes asked for. *)
Definition saved (tr : list Event) : list Catalog :=
  omap (fun ev => match ev with EvSave c => Some c | _ => None end) tr.

Definition downloads (tr : list Event) : list (string * list float) :=
  omap (fun ev => match ev with
                  | EvDownloadAndStitch f b => Some (f, b)
                  | _ => None
                  end) tr.

Definition corrections (tr : list Event) : list (string * string * string) :=
  omap (fun ev => match ev with
                  | EvTerrainCorrection s o d => Some (s, o, d)
                  | _ => None
                  end) tr.

(** The calls the loop over the products may make: the archive and staging
    directory calls of [extract_zip], and the two sarsen calls of
    [run_sarsen] with the run's DEM and the output path of the product. *)
Definition loop_event (dem_file out_dir : string) (ev : Event) : Prop :=
  match ev with
  | EvZipFile _ | EvMakedirs _ | EvExtractAll _ _ | EvListdir _
  | EvSentinel1SarProduct _ => True
  | EvTerrainCorrection s o d =>
      d = dem_file /\ o = sarsen_output_file s out_dir
  | _ => False
  end.

Definition archive_event (ev : Event) : Prop :=
  match ev with
  | EvZipFile _ | EvMakedirs _ | EvExtractAll _ _ | EvListdir _ => True
  | _ => False
  end.

(** The item documents the loop of [get_s1_grd_path] opens: one per item
    link, up to and including the first that cannot be read. *)
Fixpoint links_opened (env : Env) (json_file : string) (links : list Link)
    : list string :=
  match links with
  | [] => []
  | link :: rest =>
      if String.eqb (link_rel link) "item" then
        item_document json_file link ::
        match read_item env (item_document json_file link) with
        | inl _ => []
        | inr _ => links_opened env json_file rest
        end
      else links_opened env json_file rest
  end.

Definition missing_asset_warning (stac_asset_name item_path : string) : LogRecord :=
  mkLog WARNING
    ("No '" +:+ stac_asset_name +:+ "' asset found in item " +:+ item_path).

(** The warnings of that loop: one per item read that lacks the asset. *)
Fixpoint links_warnings (env : Env) (json_file stac_asset_name : string)
    (links : list Link) : list LogRecord :=
  match links with
  | [] => []
  | link :: rest =>
      if String.eqb (link_rel link) "item" then
        match read_item env (item_document json_file link) with
        | inl _ => []
        | inr item =>
            match item_assets item !! stac_asset_name with
            | Some _ => links_warnings env json_file stac_asset_name rest
            | None =>
                missing_asset_warning stac_asset_name (item_document json_file link)
                :: links_warnings env json_file stac_asset_name rest
            end
        end
      else links_warnings env json_file stac_asset_name rest
  end.

(** What [retrieve_stac_item_by_rel] returns, read off the documents alone. *)
Definition retrieved (env : Env) (stac_catalog_file stac_item_rel : string)
    : option Item :=
  match read_catalog env stac_catalog_file with
  | inl _ => None
  | inr catalog =>
      match find (fun link => String.eqb (link_rel link) stac_item_rel)
              (cat_links catalog) with
      | Some link =>
          match read_item env (item_document stac_catalog_file link) with
          | inl _ => None
          | inr item => Some item
          end
      | None => None
      end
  end.

(** An ERROR record of [lg]. *)
Definition has_error (lg : list LogRecord) : Prop :=
  exists msg, In (mkLog ERROR msg) lg.

(** The log records and the documents opened by one call of
    [get_s1_grd_path], read off the documents alone. *)
Definition grd_log (env : Env) (json_file stac_asset_name : string)
    : list LogRecord :=
  [mkLog INFO "Fetching S1 GRD product paths from the STAC catalog..."] ++
  match read_catalog env json_file with
  | inl e => [mkLog ERROR ("Error fetching S1 GRD product paths: " +:+ exc_str e)]
  | inr catalog =>
      match cat_links catalog with
      | [] => [mkLog WARNING "No links found in the STAC catalog."]
      | links =>
          links_warnings env json_file stac_asset_name links ++
          match snd (links_outcome env json_file stac_asset_name links) with
          | Some e =>
              [mkLog ERROR ("Error fetching S1 GRD product paths: " +:+ exc_str e)]
          | None => []
          end
      end
  end ++
  [mkLog INFO ("get_s1_grd_path" +:+ ": %.1f seconds")].

Definition grd_opened (env : Env) (json_file : string) : list string :=
  json_file ::
  match read_catalog env json_file with
  | inl _ => []
  | inr catalog => links_opened env json_file (cat_links catalog)
  end.

(** The same for [retrieve_stac_item_by_rel]. *)
Definition retrieve_log (env : Env) (stac_catalog_file stac_item_rel : string)
    : list LogRecord :=
  match read_catalog env stac_catalog_file with
  | inl e => [mkLog ERROR ("Error retrieving the STAC item: " +:+ exc_str e)]
  | inr catalog =>
      match cat_links catalog with
      | [] => [mkLog WARNING "No links found in the STAC catalog."]
      | links =>
          match find (fun link => String.eqb (link_rel link) stac_item_rel) links with
          | Some link =>
              match read_item env (item_document stac_catalog_file link) with
              | inl e => [mkLog ERROR ("Error retrieving the STAC item: " +:+ exc_str e)]
              | inr _ => []
              end
          | None => []
          end
      end
  end.

Definition retrieve_opened (env : Env) (stac_catalog_file stac_item_rel : string)
    : list string :=
  stac_catalog_file ::
  match read_catalog env stac_catalog_file with
  | inl _ => []
  | inr catalog =>
      match find (fun link => String.eqb (link_rel link) stac_item_rel)
              (cat_links catalog) with
      | Some link => [item_document stac_catalog_file link]
      | None => []
      end
  end.

(** ** More concrete worlds *)

Definition bare_item (name : string) : Item :=
  mkItem name None None ∅ {[ "thumbnail" := product_asset "./quick-look.png" ]} None.

(** Two items, the first without the [PRODUCT] asset. *)
Definition skipping_world : Env :=
  world
    [("/in/catalog.json",
      input_catalog [mkLink "item" "./i0.json"; mkLink "item" "./i1.json"])]
    [("/in/i0.json", bare_item "S0"); ("/in/i1.json", s1_item "S1A" "p1.zip")]
    [("/in/p1.zip", ZipMembers ["A.SAFE/manifest.safe"] None)]
    []
    [("/out/A_sarsen_output.tif", 1234%Z)].

(** A catalog whose links are not item links. *)
Definition no_item_world : Env :=
  world
    [("/in/catalog.json",
      input_catalog [mkLink "root" "./catalog.json"; mkLink "child" "./sub/catalog.json"])]
    [] [] [] [].

(** Two item links, the first to a document that is not there. *)
Definition first_item_missing_world : Env :=
  world
    [("/in/catalog.json",
      input_catalog [mkLink "item" "./gone.json"; mkLink "item" "./i1.json"])]
    [("/in/i1.json", s1_item "S1A" "p1.zip")]
    [] [] [].

(** The calls [create_stage_out_catalog] may make. *)
Definition writer_event (ev : Event) : Prop :=
  match ev with
  | EvGetsize _ | EvSave _ => True
  | _ => False
  end.

(** Where [create_stage_out_catalog] puts the item document. *)
Definition output_item_path (env : Env) (output_dir : string) (item : Item)
    : string :=
  stored_self_href env
    (posixpath.abspath (cwd env)
       (posixpath.join (posixpath.join output_dir (item_id item))
          (item_id item +:+ ".json"))).

(** The record [main] logs when the loop over the products is done. *)
Definition completion_record : LogRecord :=
  mkLog INFO "SARSEN process completed for all S1 GRD products.".

(** The number of characters of [p] up to and including its last separator:
    [p.rfind(sep) + 1], by recursion on [p]. *)
Fixpoint last_sep1 (p : string) : nat :=
  match p with
  | EmptyString => 0
  | String c s =>
      match last_sep1 s with
      | O => if Ascii.eqb c posixpath.sep then 1 else 0
      | S k => S (S k)
      end
  end.

(** The product path one link of a catalog gives: the resolved href of the
    asset of its item, for an item link whose document can be read and holds
    the asset. *)
Definition item_asset_path (env : Env) (json_file stac_asset_name : string)
    (link : Link) : option string :=
  if String.eqb (link_rel link) "item" then
    match read_item env (item_document json_file link) with
    | inr item =>
        match item_assets item !! stac_asset_name with
        | Some a => Some (asset_document (item_document json_file link) a)
        | None => None
        end
    | inl _ => None
    end
  else None.

Definition is_item_link (link : Link) : bool := String.eqb (link_rel link) "item".

(** ** The steps of a run, read off the environment *)

(** What [get_dem] returns: the DEM file after a download that worked, the
    empty path after one that failed. *)
Definition dem_path (env : Env) (box : list float) (out_dir : string) : string :=
  match download_and_stitch env (posixpath.join out_dir "dem.tif") box with
  | None => posixpath.join out_dir "dem.tif"
  | Some _ => ""
  end.

(** What [run_sarsen] returns: the output path of the product when both
    sarsen calls worked, the empty path otherwise. *)
Definition corrected_path (env : Env) (s1_file dem_file output_dir : string)
    : string :=
  match sentinel1_sar_product env s1_file with
  | Some _ => ""
  | None =>
      match terrain_correction env s1_file
              (sarsen_output_file s1_file output_dir) dem_file with
      | Some _ => ""
      | None => sarsen_output_file s1_file output_dir
      end
  end.

(** What [extract_zip] returns for an archive, and the staging directory it
    leaves, when the staging directory holds [d]. *)
Definition extraction (env : Env) (zip_file : string) (d : list string)
    : string * list string :=
  match zip_archive env zip_file with
  | ZipUnreadable _ => ("", d)
  | ZipMembers names fault =>
      let temp_dir := posixpath.abspath (cwd env) "temp_extract" in
      match makedirs env temp_dir with
      | Some _ => ("", d)
      | None =>
          let d' := fold_left add_entry (omap top_entry names) d in
          match fault with
          | Some _ => ("", d')
          | None =>
              match listdir_order env d' with
              | first :: _ => (posixpath.join temp_dir first, d')
              | [] => ("", d')
              end
          end
      end
  end.

(** The extracted paths the loop of [main] hands to [run_sarsen]: for each
    product in turn, what [extract_zip] returns, when that is not empty. *)
Fixpoint handed (env : Env) (products : list string) (d : list string)
    : list string :=
  match products with
  | [] => []
  | p :: rest =>
      let r := extraction env p d in
      if negb (String.eqb (fst r) "")
      then fst r :: handed env rest (snd r)
      else handed env rest (snd r)
  end.

(** The [output_files] the loop of [main] ends with. *)
Definition loop_outputs (env : Env) (dem_file out_dir : string)
    (products : list string) (d : list string) : list string :=
  map (fun r => corrected_path env r dem_file out_dir) (handed env products d).

(** The terrain corrections the loop attempts with the DEM [dem_file]: one
    for each path handed to [run_sarsen] that sarsen opens as a product. *)
Definition attempted (env : Env) (dem_file out_dir : string) (rs : list string)
    : list (string * string * string) :=
  map (fun r => (r, sarsen_output_file r out_dir, dem_file))
    (List.filter (fun r => match sentinel1_sar_product env r with
                           | None => true
                           | Some _ => false
                           end) rs).

(** An archive whose member names start with [.] and [..] components. *)
Definition dotted_archive_world : Env :=
  world [] []
    [("/in/b.zip",
      ZipMembers ["./B.SAFE/manifest.safe"; "../B.SAFE/preview/quick-look.png"] None)]
    [] [].


(** A file system that lists the newest entry of a directory first. *)
Definition newest_first (env : Env) : Env :=
  mkEnv (cwd env) (read_catalog env) (read_item env) (download_and_stitch env)
    (zip_archive env) (makedirs env) (fun d => rev d)
    (sentinel1_sar_product env) (terrain_correction env) (getsize env)
    (catalog_save env) (pystac env).

(** Three products: sarsen fails on the first, the second archive is not a
    zip file, the third is processed; the newest entry is listed first. *)
Definition mixed_failures_world : Env :=
  newest_first
    (world [] []
       [("/in/p1.zip", ZipMembers ["A.SAFE/manifest.safe"] None);
        ("/in/p2.zip", ZipUnreadable (LibraryError "File is not a zip file"));
        ("/in/p3.zip", ZipMembers ["C.SAFE/manifest.safe"] None)]
       ["/w/temp_extract/A.SAFE"]
       []).

(** * Properties *)

(** ** The path and string operations on known values *)

Example join_ex : posixpath.join "/a/b" "../c/item.json" = "/a/b/../c/item.json".
Proof. reflexivity. Qed.
Example dirname_ex : posixpath.dirname "/a/b/catalog.json" = "/a/b".
Proof. reflexivity. Qed.
Example dirname_root : posixpath.dirname "/catalog.json" = "/".
Proof. reflexivity. Qed.
Example dirname_none : posixpath.dirname "catalog.json" = "".
Proof. reflexivity. Qed.
Example normpath_ex : posixpath.normpath "/a/b/../c/item.json" = "/a/c/item.json".
Proof. reflexivity. Qed.
Example normpath_rel : posixpath.normpath "../../x/./y//z/.." = "../../x/y".
Proof. reflexivity. Qed.
Example normpath_dslash : posixpath.normpath "//a/../../b" = "//b".
Proof. reflexivity. Qed.
Example basename_ex : posixpath.basename "/t/temp_extract/S1A.SAFE" = "S1A.SAFE".
Proof. reflexivity. Qed.
Example basename_slash : posixpath.basename "/t/x/" = "".
Proof. reflexivity. Qed.
Example relpath_ex :
  posixpath.relpath "/w" "/w/out/x.tif" "/w/out/id" = "../x.tif".
Proof. reflexivity. Qed.
Example replace_ex :
  str_replace ".SAFE" "_sarsen_output.tif" "a.SAFE.SAFE"
  = "a_sarsen_output.tif_sarsen_output.tif".
Proof. reflexivity. Qed.
Example replace_empty_old : str_replace "" "-" "abc" = "-a-b-c-".
Proof. reflexivity. Qed.

(** ** Running the monad *)

Ltac run_unfold :=
  unfold logtime, attempt, try_except, bind, ret, raise, sys_exit, logger, emit,
    get_staging, put_staging, lift_sum, lift_fault in *.

Ltac run := run_unfold; simpl in *.

Lemma zip_opened_app (a b : list Event) :
  zip_opened (a ++ b) = zip_opened a ++ zip_opened b.
Proof. apply omap_app. Qed.

Lemma sarsen_products_app (a b : list Event) :
  sarsen_products (a ++ b) = sarsen_products a ++ sarsen_products b.
Proof. apply omap_app. Qed.

Ltac solve_logged :=
  unfold logged; simpl; eexists; rewrite ?in_app_iff; simpl; eauto 12.

(** ** The guarded collaborators *)


(** [run_sarsen] never raises: it hands the product to sarsen once, and a
    failure there gives the empty path and an ERROR record. *)
Lemma run_sarsen_total (env : Env) (s1 dem out : string) (st : State) :
  exists o st',
    run_sarsen env s1 dem out st = (Ok o, st') /\
    zip_opened (st_trace st') = zip_opened (st_trace st) /\
    sarsen_products (st_trace st') = sarsen_products (st_trace st) ++ [s1] /\
    (sentinel1_sar_product env s1 = None ->
     terrain_correction env s1 (sarsen_output_file s1 out) dem = None ->
     o = sarsen_output_file s1 out) /\
    ((exists e, sentinel1_sar_product env s1 = Some e) \/
     (exists e, terrain_correction env s1 (sarsen_output_file s1 out) dem = Some e) ->
     o = "" /\ logged ERROR st').
Proof.
  unfold run_sarsen, sarsen_Sentinel1SarProduct, sarsen_terrain_correction. run.
  destruct (sentinel1_sar_product env s1) as [e1|]; simpl.
  - eexists _, _. split; [reflexivity|]. simpl.
    rewrite zip_opened_app, sarsen_products_app. simpl. rewrite app_nil_r.
    repeat split; try discriminate. solve_logged.
  - destruct (terrain_correction env s1 _ dem) as [e2|]; simpl.
    + eexists _, _. split; [reflexivity|]. simpl.
      rewrite !zip_opened_app, !sarsen_products_app. simpl. rewrite !app_nil_r.
      repeat split; try discriminate. solve_logged.
    + eexists _, _. split; [reflexivity|]. simpl.
      rewrite !zip_opened_app, !sarsen_products_app. simpl. rewrite !app_nil_r.
      split; [reflexivity|]. split; [reflexivity|]. split; [reflexivity|].
      intros [[e He]|[e He]]; discriminate.
Qed.

(** [extract_zip] never raises: it opens the archive once, and an archive
    that cannot be opened or extracted gives the empty path and an ERROR
    record. *)
Lemma extract_zip_total (env : Env) (p : string) (st : State) :
  exists r st',
    extract_zip env p st = (Ok r, st') /\
    zip_opened (st_trace st') = zip_opened (st_trace st) ++ [p] /\
    sarsen_products (st_trace st') = sarsen_products (st_trace st) /\
    (forall e, zip_archive env p = ZipUnreadable e -> r = "" /\ logged ERROR st') /\
    (forall names e, zip_archive env p = ZipMembers names (Some e) ->
                     r = "" /\ logged ERROR st').
Proof.
  unfold extract_zip, zipfile_ZipFile, os_makedirs, extractall, os_listdir. run.
  destruct (zip_archive env p) as [e|names fault]; simpl.
  - eexists _, _. split; [reflexivity|]. simpl.
    rewrite !zip_opened_app, !sarsen_products_app. simpl. rewrite !app_nil_r.
    repeat split; try discriminate. solve_logged.
  - destruct (makedirs env _) as [e|]; simpl.
    + eexists _, _. split; [reflexivity|]. simpl.
      rewrite !zip_opened_app, !sarsen_products_app. simpl. rewrite !app_nil_r.
      repeat split; try discriminate. solve_logged.
    + destruct fault as [e|]; simpl.
      * eexists _, _. split; [reflexivity|]. simpl.
        rewrite !zip_opened_app, !sarsen_products_app. simpl. rewrite !app_nil_r.
        repeat split; try discriminate. solve_logged.
      * destruct (listdir_order env _) as [|first rest]; simpl;
          (eexists _, _; split; [reflexivity|]; simpl;
           rewrite !zip_opened_app, !sarsen_products_app; simpl;
           rewrite !app_nil_r; repeat split; discriminate).
Qed.

(** ** The catalog reader *)

(** The loop of [get_s1_grd_path] never raises: it returns what it appended
    and the exception that stopped it, as [links_outcome] reads them off the
    documents. *)
Lemma for_links_outcome (env : Env) (P name : string) (links : list Link) :
  forall (acc : list string) (st : State),
  exists st',
    for_links env P name links acc st
    = (Ok (acc ++ fst (links_outcome env P name links),
           snd (links_outcome env P name links)), st') /\
    (forall l, logged l st -> logged l st').
Proof.
  induction links as [|link rest IH]; intros acc st; simpl.
  - exists st. rewrite app_nil_r. split; [reflexivity|auto].
  - destruct (String.eqb (link_rel link) "item"); [|apply IH].
    unfold open_item, item_document, asset_document. run.
    destruct (read_item env _) as [e|item]; simpl.
    + eexists. rewrite app_nil_r. split; [reflexivity|].
      intros l [msg Hm]. exists msg. exact Hm.
    + destruct (item_assets item !! name) as [a|]; simpl.
      * match goal with
        | |- context [for_links env P name rest ?acc' ?st1] =>
            destruct (IH acc' st1) as (st' & Heq & Hlog)
        end.
        exists st'. rewrite Heq, <- app_assoc. split; [reflexivity|].
        intros l [msg Hm]. apply Hlog. exists msg. exact Hm.
      * match goal with
        | |- context [for_links env P name rest ?acc' ?st1] =>
            destruct (IH acc' st1) as (st' & Heq & Hlog)
        end.
        exists st'. rewrite Heq. split; [reflexivity|].
        intros l [msg Hm]. apply Hlog. exists msg. simpl.
        apply in_or_app. left. exact Hm.
Qed.

Arguments for_links : simpl never.

(** [get_s1_grd_path] never raises and returns [discovered_paths]; an
    unreadable catalog or item document leaves an ERROR record. *)
Lemma get_s1_grd_path_outcome (env : Env) (P name : string) (st : State) :
  exists st',
    get_s1_grd_path env P name st = (Ok (discovered_paths env P name), st') /\
    (forall e, read_catalog env P = inl e -> logged ERROR st') /\
    (forall c e, read_catalog env P = inr c ->
                 snd (links_outcome env P name (cat_links c)) = Some e ->
                 logged ERROR st').
Proof.
  unfold get_s1_grd_path, discovered_paths, open_catalog. run.
  destruct (read_catalog env P) as [e|catalog]; simpl.
  - eexists. split; [reflexivity|]. split; [|discriminate].
    intros ? _. solve_logged.
  - destruct (cat_links catalog) as [|l ls] eqn:Hlinks.
    + eexists. split; [reflexivity|]. split; [discriminate|].
      intros c e Hc. injection Hc as <-. rewrite Hlinks. discriminate.
    + match goal with
      | |- context [for_links env P name (l :: ls) ?acc' ?st1] =>
          destruct (for_links_outcome env P name (l :: ls) acc' st1)
            as (st' & Heq & Hlog)
      end.
      rewrite Heq. cbn [fst snd app].
      destruct (snd (links_outcome env P name (l :: ls))) as [e|] eqn:Herr.
      * eexists. split; [reflexivity|]. split; [discriminate|].
        intros _ _ _ _. solve_logged.
      * eexists. split; [reflexivity|]. split; [discriminate|].
        intros c e Hc. injection Hc as <-. rewrite Hlinks, Herr. discriminate.
Qed.

(** ** The orchestrator's loop *)

(** The loop over the products never raises.  It opens every product's
    archive, in order; it hands to sarsen only non-empty extracted paths; and
    it appends to [output_files] one element per call of [run_sarsen]. *)
Lemma for_products_total (env : Env) (dem out : string) (ps : list string) :
  forall (acc : list string) (st : State),
  exists new ex st',
    for_products env dem out ps acc st = (Ok (acc ++ new), st') /\
    zip_opened (st_trace st') = zip_opened (st_trace st) ++ ps /\
    sarsen_products (st_trace st') = sarsen_products (st_trace st) ++ ex /\
    Forall (fun e => e <> "") ex /\
    length ex <= length ps /\
    length new = length ex.
Proof.
  induction ps as [|p rest IH]; intros acc st.
  - exists [], [], st. cbn [for_products]. unfold ret.
    rewrite !app_nil_r. repeat split; auto.
  - cbn [for_products]. unfold bind at 1.
    destruct (extract_zip_total env p st) as (r & st1 & Hex & Hz & Hs & _).
    rewrite Hex.
    destruct (String.eqb r "") eqn:Hr; cbn [negb].
    + unfold bind, logger. cbv beta iota.
      match goal with
      | |- context [for_products env dem out rest acc ?st2] =>
          destruct (IH acc st2) as (new & ex & st' & Heq & Hz' & Hs' & Hne & Hlen & Hnew)
      end.
      exists new, ex, st'. rewrite Heq. cbn [st_trace] in Hz', Hs'.
      rewrite Hz', Hs', Hz, Hs, <- app_assoc.
      repeat split; auto. cbn [length]. lia.
    + unfold bind at 1.
      destruct (run_sarsen_total env r dem out st1) as (o & st2 & Hrun & Hz2 & Hs2 & _).
      rewrite Hrun.
      destruct (IH (acc ++ [o]) st2) as (new & ex & st' & Heq & Hz' & Hs' & Hne & Hlen & Hnew).
      exists (o :: new), (r :: ex), st'. rewrite Heq.
      rewrite Hz', Hs', Hz2, Hs2, Hz, Hs, <- !app_assoc.
      repeat split; auto.
      * constructor; [|exact Hne]. intros ->. discriminate.
      * cbn [length]. lia.
      * cbn [length]. lia.
Qed.

Arguments for_products : simpl never.

(** ** Paths *)

Lemma normpath_isabs (p : string) :
  posixpath.isabs p = true -> posixpath.isabs (posixpath.normpath p) = true.
Proof.
  destruct p as [|c s]; [discriminate|].
  unfold posixpath.isabs, posixpath.normpath. cbn [posixpath.startswith_sep].
  intros ->. cbn [String.eqb].
  destruct (String.prefix "//" (String c s) && negb (String.prefix "///" (String c s)));
    reflexivity.
Qed.

Lemma join_isabs (a b : string) :
  posixpath.isabs a = true -> posixpath.isabs (posixpath.join a b) = true.
Proof.
  unfold posixpath.isabs, posixpath.join. intros Ha.
  destruct (posixpath.startswith_sep b) eqn:Hb; [exact Hb|].
  destruct a as [|c s]; [discriminate|].
  destruct (String.eqb (String c s) "" || posixpath.endswith_sep (String c s));
    exact Ha.
Qed.

Lemma abspath_isabs (dir p : string) :
  posixpath.isabs dir = true -> posixpath.isabs (posixpath.abspath dir p) = true.
Proof.
  intros Hd. unfold posixpath.abspath. apply normpath_isabs.
  destruct (posixpath.isabs p) eqn:Hp; [exact Hp|].
  apply join_isabs, Hd.
Qed.

(** ** The catalog writer *)

(** The asset [create_stage_out_catalog] leaves under the key ["output"]. *)
Lemma create_stage_out_catalog_ok (env : Env) (output_dir : string) (item : Item)
    (box : list float) (asset_name asset_path : string) (original : Asset)
    (size : Z) (st : State) :
  length box = 4 ->
  item_assets item !! asset_name = Some original ->
  getsize env (posixpath.abspath (cwd env) asset_path) = inr size ->
  (forall c, catalog_save env c = None) ->
  exists catalog out_item geometry st',
    create_stage_out_catalog env output_dir item box asset_name asset_path st
    = (Ok catalog, st') /\
    cat_items catalog = [out_item] /\
    bbox_to_geojson box = inr geometry /\
    item_bbox out_item = Some box /\
    item_geometry out_item = Some geometry /\
    item_self_href out_item = Some (output_item_path env output_dir item) /\
    item_assets out_item
    = {[ "output" :=
           mkAsset
             (if is_absolute_href env (posixpath.abspath (cwd env) asset_path)
              then make_relative_href env (posixpath.abspath (cwd env) asset_path)
                     (output_item_path env output_dir item)
              else posixpath.abspath (cwd env) asset_path)
             (Some "output") (asset_description original) (Some "image/tiff")
             (Some ["data"])
             (<["file:size" := JInt size]> (asset_extra_fields original)) ]}.
Proof.
  intros Hbox Hasset Hsize Hsave.
  destruct box as [|a [|b [|c [|d [|? ?]]]]]; try discriminate.
  unfold create_stage_out_catalog, os_path_getsize, Catalog_save,
    Item_make_asset_hrefs_relative, Item_set_self_href, output_item_path.
  run. rewrite lookup_fmap, Hasset. simpl.
  rewrite Hsize. simpl. rewrite Hsave. simpl.
  eexists _, _, _, _. split; [reflexivity|]. simpl.
  repeat split.
  rewrite map_fmap_singleton. simpl.
  unfold set_asset_href, output_asset, Asset_clone. simpl.
  destruct (is_absolute_href env (posixpath.abspath (cwd env) asset_path));
    simpl;
    (destruct (item_self_href item); simpl;
     [destruct (is_absolute_href env (asset_href original))|]; reflexivity).
Qed.

(** ** Argument parsing *)

Lemma parse_args_outcome (raw : RawCli) (st : State) :
  (exists args, parse_args raw st = (Ok args, st) /\
                length (bbox args) = 4 /\
                stac_catalog_folder args = cli_stac_catalog_folder raw /\
                cli_bbox raw = Some (bbox args) /\
                cli_out_dir raw = Some (out_dir args)) \/
  (exists code, parse_args raw st = (Raise (SystemExit code), st)).
Proof.
  unfold parse_args.
  destruct (cli_version raw).
  { right. destruct (cli_bbox raw) as [box|]; [|eexists; reflexivity].
    destruct (cli_bbox_precedes_version raw && Nat.ltb (length box) 4);
      eexists; reflexivity. }
  destruct (cli_bbox raw) as [box|]; [|right; eexists; reflexivity].
  destruct (cli_out_dir raw) as [out|]; [|right; eexists; reflexivity].
  destruct (Nat.eqb (length box) 4) eqn:Hlen; [|right; eexists; reflexivity].
  left. eexists. split; [reflexivity|]. simpl.
  apply Nat.eqb_eq in Hlen. auto.
Qed.

(** ** Replacing [.SAFE] *)

Lemma append_cons (c : ascii) (s t : string) :
  String c s +:+ t = String c (s +:+ t).
Proof. reflexivity. Qed.

Lemma append_empty_l (t : string) : "" +:+ t = t.
Proof. reflexivity. Qed.

Lemma append_nil_r (s : string) : s +:+ "" = s.
Proof.
  induction s as [|c s IH]; [reflexivity|].
  rewrite append_cons. f_equal. exact IH.
Qed.

(** A pattern that does not start [s] does not start [s] followed by a text
    whose first character the pattern does not hold. *)
Lemma prefix_app_false (c : ascii) (t : string) :
  forall p s : string,
    String.prefix p s = false ->
    occurs c p = false ->
    String.prefix p (s +:+ String c t) = false.
Proof.
  induction p as [|a p IH]; intros s Hp Hc.
  - destruct s; discriminate.
  - cbn [occurs] in Hc. apply orb_false_elim in Hc as [Hca Hc].
    destruct s as [|b s].
    + rewrite append_empty_l. cbn [String.prefix].
      destruct (ascii_dec a c) as [->|]; [|reflexivity].
      rewrite Ascii.eqb_refl in Hca. discriminate.
    + rewrite append_cons. cbn [String.prefix] in *.
      destruct (ascii_dec a b); [|reflexivity].
      apply IH; assumption.
Qed.

(** With no [.SAFE] inside the stem, the scan of [replace] copies the stem and
    replaces the suffix. *)
Lemma replace_from_stem (new stem : string) :
  contains ".SAFE" stem = false ->
  replace_from ".SAFE" new 0 (stem +:+ ".SAFE") = stem +:+ new.
Proof.
  induction stem as [|c stem IH]; intros Hc.
  - rewrite !append_empty_l. cbn. apply append_nil_r.
  - cbn [contains] in Hc. apply orb_false_elim in Hc as [Hp Hc].
    rewrite !append_cons. cbn [replace_from].
    assert (Hpre : String.prefix ".SAFE" (String c (stem +:+ ".SAFE")) = false).
    { cbn [String.prefix] in *.
      destruct (ascii_dec "." c); [|reflexivity].
      apply prefix_app_false; [exact Hp|reflexivity]. }
    rewrite Hpre. f_equal. apply IH, Hc.
Qed.

Lemma str_replace_stem (stem : string) :
  contains ".SAFE" stem = false ->
  str_replace ".SAFE" "_sarsen_output.tif" (stem +:+ ".SAFE")
  = stem +:+ "_sarsen_output.tif".
Proof. intros H. unfold str_replace. cbn [String.eqb]. now apply replace_from_stem. Qed.

(** ** Link resolution *)

Lemma links_outcome_with_cwd (env : Env) (dir P name : string) (links : list Link) :
  links_outcome (with_cwd dir env) P name links = links_outcome env P name links.
Proof.
  induction links as [|l rest IH]; [reflexivity|].
  cbn [links_outcome]. rewrite IH. reflexivity.
Qed.

Lemma discovered_paths_with_cwd (env : Env) (dir P name : string) :
  discovered_paths (with_cwd dir env) P name = discovered_paths env P name.
Proof.
  unfold discovered_paths. cbn [read_catalog with_cwd].
  destruct (read_catalog env P); [reflexivity|].
  now rewrite links_outcome_with_cwd.
Qed.

Lemma readable_before_tail (env : Env) (P : string) (l : Link) (pre : list Link) :
  readable_before env P (l :: pre) -> readable_before env P pre.
Proof. intros H x Hx. apply H. now right. Qed.

(** Past readable links the loop goes on: the paths of [pre] come first. *)
Lemma links_outcome_app (env : Env) (P name : string) (pre rest : list Link) :
  readable_before env P pre ->
  links_outcome env P name (pre ++ rest)
  = (fst (links_outcome env P name pre) ++ fst (links_outcome env P name rest),
     snd (links_outcome env P name rest)).
Proof.
  induction pre as [|l pre IH]; intros Hpre.
  - cbn. now destruct (links_outcome env P name rest).
  - specialize (IH (readable_before_tail _ _ _ _ Hpre)).
    cbn [app links_outcome].
    destruct (String.eqb (link_rel l) "item") eqn:Hrel; [|exact IH].
    apply String.eqb_eq in Hrel.
    destruct (Hpre l (or_introl eq_refl) Hrel) as [i Hi]. rewrite Hi, IH.
    destruct (item_assets i !! name); reflexivity.
Qed.

(** * Further properties *)

Ltac solve_ext :=
  first [ symmetry; apply app_nil_r | rewrite <- ?app_assoc; reflexivity ].

Lemma state_eta (st : State) :
  mkState (st_log st) (st_staging st) (st_trace st) = st.
Proof. now destruct st. Qed.

(** ** The catalog reader, state included *)

(** The loop of [get_s1_grd_path] leaves the staging directory alone, logs
    [links_warnings] and opens [links_opened]. *)
Lemma for_links_state (env : Env) (P name : string) (links : list Link) :
  forall (acc : list string) (st : State),
    for_links env P name links acc st
    = (Ok (acc ++ fst (links_outcome env P name links),
           snd (links_outcome env P name links)),
       mkState (st_log st ++ links_warnings env P name links) (st_staging st)
         (st_trace st ++ map EvOpen (links_opened env P links))).
Proof.
  induction links as [|link rest IH]; intros acc st.
  - cbn. now rewrite !app_nil_r, state_eta.
  - cbn [links_outcome links_warnings links_opened].
    unfold for_links. cbv beta iota fix. fold (for_links env).
    destruct (String.eqb (link_rel link) "item"); [|apply IH].
    fold (item_document P link).
    unfold open_item. run_unfold. cbn [st_log st_staging st_trace].
    destruct (read_item env (item_document P link)) as [e|item].
    + cbn. now rewrite !app_nil_r.
    + unfold ret. cbv beta iota.
      destruct (item_assets item !! name) as [a|]; cbv beta iota.
      * rewrite IH. cbn [st_log st_staging st_trace fst snd map].
        unfold asset_document. now rewrite <- !app_assoc.
      * rewrite IH. cbn [st_log st_staging st_trace fst snd map].
        unfold missing_asset_warning. now rewrite <- !app_assoc.
Qed.

Lemma get_s1_grd_path_state (env : Env) (P name : string) (st : State) :
  get_s1_grd_path env P name st
  = (Ok (discovered_paths env P name),
     mkState (st_log st ++ grd_log env P name) (st_staging st)
       (st_trace st ++ map EvOpen (grd_opened env P))).
Proof.
  unfold get_s1_grd_path, discovered_paths, grd_log, grd_opened, open_catalog.
  run_unfold. cbn [st_log st_staging st_trace].
  destruct (read_catalog env P) as [e|catalog].
  - cbn. now rewrite <- !app_assoc.
  - unfold ret. cbv beta iota.
    destruct (cat_links catalog) as [|l ls].
    + cbn. now rewrite <- !app_assoc.
    + cbv beta iota. rewrite for_links_state.
      cbn [st_log st_staging st_trace fst snd app].
      destruct (snd (links_outcome env P name (l :: ls))) as [e|];
        cbn [st_log st_staging st_trace map app]; now rewrite <- !app_assoc.
Qed.

Lemma retrieve_stac_item_by_rel_state (env : Env) (file rel : string) (st : State) :
  retrieve_stac_item_by_rel env file rel st
  = (Ok (retrieved env file rel),
     mkState (st_log st ++ retrieve_log env file rel) (st_staging st)
       (st_trace st ++ map EvOpen (retrieve_opened env file rel))).
Proof.
  unfold retrieve_stac_item_by_rel, retrieved, retrieve_log, retrieve_opened,
    open_catalog, open_item.
  run_unfold. cbn [st_log st_staging st_trace].
  destruct (read_catalog env file) as [e|catalog].
  - cbn. reflexivity.
  - unfold ret. cbv beta iota.
    destruct (cat_links catalog) as [|l ls].
    + cbn. reflexivity.
    + cbv beta iota.
      destruct (find _ (l :: ls)) as [link|]; cbv beta iota.
      * fold (item_document file link). cbn [st_log st_staging st_trace].
        destruct (read_item env (item_document file link)) as [e|item];
          cbn; rewrite <- ?app_assoc, ?app_nil_r; reflexivity.
      * cbn. rewrite ?app_nil_r. reflexivity.
Qed.

(** ** What the catalog reader returns, logs and opens *)

Lemma links_outcome_sound (env : Env) (P name : string) (links : list Link)
    (p : string) :
  In p (fst (links_outcome env P name links)) ->
  exists link item a,
    In link links /\ link_rel link = "item" /\
    read_item env (item_document P link) = inr item /\
    item_assets item !! name = Some a /\
    p = asset_document (item_document P link) a.
Proof.
  induction links as [|l rest IH]; cbn [links_outcome fst]; [intros []|].
  destruct (String.eqb (link_rel l) "item") eqn:Hrel.
  - apply String.eqb_eq in Hrel.
    destruct (read_item env (item_document P l)) as [e|item] eqn:Hread;
      [intros []|].
    destruct (item_assets item !! name) as [a|] eqn:Ha; cbn [fst].
    + intros [<-|Hin].
      * exists l, item, a. repeat split; auto. now left.
      * destruct (IH Hin) as (link & i & b & H1 & H2). exists link, i, b.
        split; [now right|exact H2].
    + intros Hin. destruct (IH Hin) as (link & i & b & H1 & H2).
      exists link, i, b. split; [now right|exact H2].
  - intros Hin. destruct (IH Hin) as (link & i & b & H1 & H2).
    exists link, i, b. split; [now right|exact H2].
Qed.

Lemma links_warnings_app (env : Env) (P name : string) (pre rest : list Link) :
  readable_before env P pre ->
  links_warnings env P name (pre ++ rest)
  = links_warnings env P name pre ++ links_warnings env P name rest.
Proof.
  induction pre as [|l pre IH]; intros Hpre; [reflexivity|].
  specialize (IH (readable_before_tail _ _ _ _ Hpre)).
  cbn [app links_warnings].
  destruct (String.eqb (link_rel l) "item") eqn:Hrel; [|exact IH].
  apply String.eqb_eq in Hrel.
  destruct (Hpre l (or_introl eq_refl) Hrel) as [i Hi]. rewrite Hi, IH.
  destruct (item_assets i !! name); reflexivity.
Qed.

Lemma no_item_link (env : Env) (P name : string) (links : list Link) :
  (forall l, In l links -> link_rel l <> "item") ->
  links_outcome env P name links = ([], None) /\
  links_opened env P links = [] /\
  links_warnings env P name links = [].
Proof.
  induction links as [|l rest IH]; intros Hno; [repeat split|].
  cbn [links_outcome links_opened links_warnings].
  destruct (String.eqb (link_rel l) "item") eqn:Hrel.
  - apply String.eqb_eq in Hrel. destruct (Hno l (or_introl eq_refl) Hrel).
  - apply IH. intros x Hx. apply Hno. now right.
Qed.

Lemma find_first_match (f : Link -> bool) (pre post : list Link) (link : Link) :
  (forall l, In l pre -> f l = false) -> f link = true ->
  find f (pre ++ link :: post) = Some link.
Proof.
  induction pre as [|l pre IH]; intros Hpre Hlink; cbn [app find].
  - now rewrite Hlink.
  - rewrite (Hpre l (or_introl eq_refl)). apply IH; [|exact Hlink].
    intros x Hx. apply Hpre. now right.
Qed.

Lemma find_no_match (f : Link -> bool) (links : list Link) :
  (forall l, In l links -> f l = false) -> find f links = None.
Proof.
  induction links as [|l rest IH]; intros Hno; [reflexivity|].
  cbn [find]. rewrite (Hno l (or_introl eq_refl)). apply IH.
  intros x Hx. apply Hno. now right.
Qed.

(** The first item link decides both readers: when the loop gathered a path,
    the first item link of the catalog was read. *)
Lemma links_outcome_first_item (env : Env) (P name : string) (links : list Link) :
  fst (links_outcome env P name links) <> [] ->
  exists link item,
    find (fun l => String.eqb (link_rel l) "item") links = Some link /\
    read_item env (item_document P link) = inr item.
Proof.
  induction links as [|l rest IH]; cbn [links_outcome fst find]; [congruence|].
  destruct (String.eqb (link_rel l) "item"); [|exact IH].
  destruct (read_item env (item_document P l)) as [e|item] eqn:Hread.
  - cbn. congruence.
  - intros _. eauto.
Qed.

(** X1: every path [get_s1_grd_path] returns is the href of the requested
    asset of an item that an item link of the catalog points to, resolved
    against the directory of that item's document: nothing else is ever
    returned. *)
Theorem X1_returned_paths_come_from_item_links :
  forall (env : Env) (P name : string) (st st' : State) (paths : list string)
         (p : string),
    get_s1_grd_path env P name st = (Ok paths, st') ->
    In p paths ->
    exists catalog link item a,
      read_catalog env P = inr catalog /\
      In link (cat_links catalog) /\
      link_rel link = "item" /\
      read_item env (item_document P link) = inr item /\
      item_assets item !! name = Some a /\
      p = posixpath.normpath
            (posixpath.join (posixpath.dirname (item_document P link))
               (asset_href a)).
Proof.
  intros env P name st st' paths p H Hin.
  rewrite get_s1_grd_path_state in H. injection H as <- _.
  unfold discovered_paths in Hin.
  destruct (read_catalog env P) as [e|catalog]; [destruct Hin|].
  destruct (links_outcome_sound _ _ _ _ _ Hin) as (link & item & a & H1 & H2 & H3 & H4 & H5).
  exists catalog, link, item, a. repeat split; assumption.
Qed.

Lemma X1_returned_paths_come_from_item_links_witness :
  exists catalog link item a,
    read_catalog nested_world "/a/b/catalog.json" = inr catalog /\
    In link (cat_links catalog) /\
    link_rel link = "item" /\
    read_item nested_world (item_document "/a/b/catalog.json" link) = inr item /\
    item_assets item !! "PRODUCT" = Some a /\
    "/a/c/product.zip"
    = posixpath.normpath
        (posixpath.join (posixpath.dirname (item_document "/a/b/catalog.json" link))
           (asset_href a)).
Proof.
  eapply (X1_returned_paths_come_from_item_links nested_world "/a/b/catalog.json"
            "PRODUCT" initial_state _ ["/a/c/product.zip"] "/a/c/product.zip").
  - vm_compute. reflexivity.
  - now left.
Defined.

(** X2: an item that lacks the requested asset is skipped: it adds no path,
    the loop goes on with the links after it, and one WARNING names the asset
    and the item document. *)
Theorem X2_item_without_asset_is_skipped :
  forall (env : Env) (P name : string) (catalog : Catalog)
         (pre post : list Link) (link : Link) (item : Item) (st : State),
    read_catalog env P = inr catalog ->
    cat_links catalog = pre ++ link :: post ->
    readable_before env P pre ->
    link_rel link = "item" ->
    read_item env (item_document P link) = inr item ->
    item_assets item !! name = None ->
    exists st',
      get_s1_grd_path env P name st
      = (Ok (fst (links_outcome env P name pre)
             ++ fst (links_outcome env P name post)), st') /\
      In (mkLog WARNING
            ("No '" +:+ name +:+ "' asset found in item " +:+ item_document P link))
         (st_log st').
Proof.
  intros env P name catalog pre post link item st Hcat Hlinks Hpre Hrel Hread Hno.
  rewrite get_s1_grd_path_state. eexists. split.
  - f_equal. f_equal. unfold discovered_paths.
    rewrite Hcat, Hlinks, (links_outcome_app _ _ _ _ _ Hpre). cbn [fst].
    cbn [links_outcome]. rewrite Hrel, Hread, Hno. reflexivity.
  - cbn [st_log]. apply in_or_app. right. unfold grd_log.
    rewrite Hcat, Hlinks. apply in_or_app. right. apply in_or_app. left.
    destruct (pre ++ link :: post) as [|x xs] eqn:Hl.
    { destruct pre; discriminate. }
    rewrite <- Hl. apply in_or_app. left.
    rewrite (links_warnings_app _ _ _ _ _ Hpre). apply in_or_app. right.
    cbn [links_warnings]. rewrite Hrel, Hread, Hno. now left.
Qed.

Lemma X2_item_without_asset_is_skipped_witness :
  exists st',
    get_s1_grd_path skipping_world "/in/catalog.json" "PRODUCT" initial_state
    = (Ok ([] ++ ["/in/p1.zip"]), st') /\
    In (mkLog WARNING "No 'PRODUCT' asset found in item /in/i0.json") (st_log st').
Proof.
  apply (X2_item_without_asset_is_skipped skipping_world "/in/catalog.json"
           "PRODUCT"
           (input_catalog [mkLink "item" "./i0.json"; mkLink "item" "./i1.json"])
           [] [mkLink "item" "./i1.json"] (mkLink "item" "./i0.json")
           (bare_item "S0") initial_state).
  - reflexivity.
  - reflexivity.
  - intros l [].
  - reflexivity.
  - reflexivity.
  - reflexivity.
Defined.

(** X3: for a catalog that can be read and has no link of relation [item],
    [get_s1_grd_path] returns the empty list, opens the catalog document and
    nothing else, and logs no error. *)
Theorem X3_no_item_link_gives_no_path :
  forall (env : Env) (P name : string) (catalog : Catalog) (st : State),
    read_catalog env P = inr catalog ->
    (forall l, In l (cat_links catalog) -> link_rel l <> "item") ->
    exists st',
      get_s1_grd_path env P name st = (Ok [], st') /\
      st_trace st' = st_trace st ++ [EvOpen P] /\
      st_staging st' = st_staging st /\
      (forall msg, In (mkLog ERROR msg) (st_log st') -> In (mkLog ERROR msg) (st_log st)).
Proof.
  intros env P name catalog st Hcat Hno.
  destruct (no_item_link env P name _ Hno) as (Hout & Hopen & Hwarn).
  rewrite get_s1_grd_path_state. eexists. split; [|split; [|split]].
  - unfold discovered_paths. now rewrite Hcat, Hout.
  - cbn [st_trace]. unfold grd_opened. now rewrite Hcat, Hopen.
  - reflexivity.
  - cbn [st_log]. intros msg Hin. apply in_app_or in Hin as [Hin|Hin]; [exact Hin|].
    exfalso. unfold grd_log in Hin. rewrite Hcat in Hin.
    destruct (cat_links catalog) as [|l ls] eqn:Hl.
    + cbn in Hin. destruct Hin as [H|[H|[H|[]]]]; discriminate.
    + rewrite Hwarn, Hout in Hin. cbn in Hin.
      destruct Hin as [H|[H|[]]]; discriminate.
Qed.

Lemma X3_no_item_link_gives_no_path_witness :
  exists st',
    get_s1_grd_path no_item_world "/in/catalog.json" "PRODUCT" initial_state
    = (Ok [], st') /\
    st_trace st' = st_trace initial_state ++ [EvOpen "/in/catalog.json"] /\
    st_staging st' = st_staging initial_state /\
    (forall msg, In (mkLog ERROR msg) (st_log st') ->
                 In (mkLog ERROR msg) (st_log initial_state)).
Proof.
  apply (X3_no_item_link_gives_no_path no_item_world "/in/catalog.json" "PRODUCT"
           (input_catalog [mkLink "root" "./catalog.json";
                           mkLink "child" "./sub/catalog.json"]) initial_state).
  - reflexivity.
  - intros l [<-|[<-|[]]]; discriminate.
Defined.

(** X4: the two catalog readers only read.  [get_s1_grd_path] and
    [retrieve_stac_item_by_rel] never raise, leave the staging directory as
    it is, and every external call they make opens a document, the catalog
    document first. *)
Theorem X4_catalog_readers_only_open_documents :
  (forall (env : Env) (P name : string) (st : State),
     exists paths docs st',
       get_s1_grd_path env P name st = (Ok paths, st') /\
       st_staging st' = st_staging st /\
       st_trace st' = st_trace st ++ map EvOpen (P :: docs)) /\
  (forall (env : Env) (file rel : string) (st : State),
     exists r docs st',
       retrieve_stac_item_by_rel env file rel st = (Ok r, st') /\
       st_staging st' = st_staging st /\
       st_trace st' = st_trace st ++ map EvOpen (file :: docs) /\
       length docs <= 1).
Proof.
  split.
  - intros env P name st. rewrite get_s1_grd_path_state.
    eexists _, _, _. split; [reflexivity|]. split; reflexivity.
  - intros env file rel st. rewrite retrieve_stac_item_by_rel_state.
    eexists _, _, _. split; [reflexivity|]. split; [reflexivity|].
    split; [reflexivity|].
    destruct (read_catalog env file) as [e|c]; [cbn; lia|].
    destruct (find _ (cat_links c)); cbn; lia.
Qed.

(** X5: [retrieve_stac_item_by_rel] looks at the first link whose relation
    matches and at no other: it returns the item of that link, or [None] with
    an ERROR record when that one document cannot be read, whatever the links
    after it are; it opens the catalog and that item document only. *)
Theorem X5_retrieve_uses_first_matching_link :
  forall (env : Env) (file rel : string) (catalog : Catalog)
         (pre post : list Link) (link : Link) (st : State),
    read_catalog env file = inr catalog ->
    cat_links catalog = pre ++ link :: post ->
    (forall l, In l pre -> link_rel l <> rel) ->
    link_rel link = rel ->
    exists st',
      retrieve_stac_item_by_rel env file rel st
      = (Ok match read_item env (item_document file link) with
            | inr item => Some item
            | inl _ => None
            end, st') /\
      st_trace st'
      = st_trace st ++ [EvOpen file; EvOpen (item_document file link)] /\
      (forall e, read_item env (item_document file link) = inl e ->
                 In (mkLog ERROR ("Error retrieving the STAC item: " +:+ exc_str e))
                    (st_log st')).
Proof.
  intros env file rel catalog pre post link st Hcat Hlinks Hpre Hrel.
  assert (Hfind : find (fun l => String.eqb (link_rel l) rel) (cat_links catalog)
                  = Some link).
  { rewrite Hlinks. apply find_first_match.
    - intros l Hl. apply String.eqb_neq. now apply Hpre.
    - now apply String.eqb_eq. }
  rewrite retrieve_stac_item_by_rel_state. eexists. split; [|split].
  - unfold retrieved. now rewrite Hcat, Hfind.
  - cbn [st_trace]. unfold retrieve_opened. now rewrite Hcat, Hfind.
  - intros e He. cbn [st_log]. apply in_or_app. right.
    unfold retrieve_log. rewrite Hcat.
    destruct (cat_links catalog) as [|x xs] eqn:Hl; [discriminate|].
    rewrite Hfind, He. now left.
Qed.

Lemma X5_retrieve_uses_first_matching_link_witness :
  exists st',
    retrieve_stac_item_by_rel first_item_missing_world "/in/catalog.json" "item"
      initial_state
    = (Ok match read_item first_item_missing_world
                  (item_document "/in/catalog.json" (mkLink "item" "./gone.json")) with
          | inr item => Some item
          | inl _ => None
          end, st') /\
    st_trace st'
    = st_trace initial_state
      ++ [EvOpen "/in/catalog.json";
          EvOpen (item_document "/in/catalog.json" (mkLink "item" "./gone.json"))] /\
    (forall e, read_item first_item_missing_world
                 (item_document "/in/catalog.json" (mkLink "item" "./gone.json")) = inl e ->
               In (mkLog ERROR ("Error retrieving the STAC item: " +:+ exc_str e))
                  (st_log st')).
Proof.
  apply (X5_retrieve_uses_first_matching_link first_item_missing_world
           "/in/catalog.json" "item"
           (input_catalog [mkLink "item" "./gone.json"; mkLink "item" "./i1.json"])
           [] [mkLink "item" "./i1.json"] (mkLink "item" "./gone.json") initial_state).
  - reflexivity.
  - reflexivity.
  - intros l [].
  - reflexivity.
Defined.

(** X6: when no link of the catalog has the requested relation,
    [retrieve_stac_item_by_rel] returns [None] after opening the catalog
    document alone, and logs no error. *)
Theorem X6_retrieve_without_matching_link :
  forall (env : Env) (file rel : string) (catalog : Catalog) (st : State),
    read_catalog env file = inr catalog ->
    (forall l, In l (cat_links catalog) -> link_rel l <> rel) ->
    exists st',
      retrieve_stac_item_by_rel env file rel st = (Ok None, st') /\
      st_trace st' = st_trace st ++ [EvOpen file] /\
      (forall msg, In (mkLog ERROR msg) (st_log st') -> In (mkLog ERROR msg) (st_log st)).
Proof.
  intros env file rel catalog st Hcat Hno.
  assert (Hfind : find (fun l => String.eqb (link_rel l) rel) (cat_links catalog) = None).
  { apply find_no_match. intros l Hl. apply String.eqb_neq. now apply Hno. }
  rewrite retrieve_stac_item_by_rel_state. eexists. split; [|split].
  - unfold retrieved. now rewrite Hcat, Hfind.
  - cbn [st_trace]. unfold retrieve_opened. now rewrite Hcat, Hfind.
  - cbn [st_log]. intros msg Hin. apply in_app_or in Hin as [Hin|Hin]; [exact Hin|].
    exfalso. unfold retrieve_log in Hin. rewrite Hcat in Hin.
    destruct (cat_links catalog) as [|x xs] eqn:Hl.
    + destruct Hin as [H|[]]. discriminate.
    + rewrite Hfind in Hin. destruct Hin.
Qed.

Lemma X6_retrieve_without_matching_link_witness :
  exists st',
    retrieve_stac_item_by_rel no_item_world "/in/catalog.json" "item" initial_state
    = (Ok None, st') /\
    st_trace st' = st_trace initial_state ++ [EvOpen "/in/catalog.json"] /\
    (forall msg, In (mkLog ERROR msg) (st_log st') ->
                 In (mkLog ERROR msg) (st_log initial_state)).
Proof.
  apply (X6_retrieve_without_matching_link no_item_world "/in/catalog.json" "item"
           (input_catalog [mkLink "root" "./catalog.json";
                           mkLink "child" "./sub/catalog.json"]) initial_state).
  - reflexivity.
  - intros l [<-|[<-|[]]]; discriminate.
Defined.

(** X7: the two readers agree on the first item link.  Whenever
    [get_s1_grd_path] returns at least one path for a catalog,
    [retrieve_stac_item_by_rel] with the relation [item] returns an item for
    it: the representative item exists on every run that found a product. *)
Theorem X7_a_found_product_has_a_representative_item :
  forall (env : Env) (P name : string) (st1 st1' st2 : State) (paths : list string),
    get_s1_grd_path env P name st1 = (Ok paths, st1') ->
    paths <> [] ->
    exists item st2',
      retrieve_stac_item_by_rel env P "item" st2 = (Ok (Some item), st2').
Proof.
  intros env P name st1 st1' st2 paths H Hne.
  rewrite get_s1_grd_path_state in H. injection H as <- _.
  unfold discovered_paths in Hne.
  destruct (read_catalog env P) as [e|catalog] eqn:Hcat; [congruence|].
  destruct (links_outcome_first_item _ _ _ _ Hne) as (link & item & Hfind & Hread).
  exists item. rewrite retrieve_stac_item_by_rel_state. eexists.
  unfold retrieved. now rewrite Hcat, Hfind, Hread.
Qed.

Lemma X7_a_found_product_has_a_representative_item_witness :
  exists item st2',
    retrieve_stac_item_by_rel skipping_world "/in/catalog.json" "item" initial_state
    = (Ok (Some item), st2').
Proof.
  eapply (X7_a_found_product_has_a_representative_item skipping_world
            "/in/catalog.json" "PRODUCT" initial_state _ initial_state ["/in/p1.zip"]).
  - vm_compute. reflexivity.
  - discriminate.
Defined.

(** ** What each step adds to the log and to the trace *)

Lemma saved_app (a b : list Event) : saved (a ++ b) = saved a ++ saved b.
Proof. apply omap_app. Qed.

Lemma downloads_app (a b : list Event) :
  downloads (a ++ b) = downloads a ++ downloads b.
Proof. apply omap_app. Qed.

Lemma corrections_app (a b : list Event) :
  corrections (a ++ b) = corrections a ++ corrections b.
Proof. apply omap_app. Qed.

Lemma extends_trans (st0 st1 st2 : State) (lg1 lg2 : list LogRecord)
    (evs1 evs2 : list Event) :
  extends st0 st1 lg1 evs1 -> extends st1 st2 lg2 evs2 ->
  extends st0 st2 (lg1 ++ lg2) (evs1 ++ evs2).
Proof.
  intros [H1 H2] [H3 H4]. split.
  - now rewrite H3, H1, app_assoc.
  - now rewrite H4, H2, app_assoc.
Qed.

Lemma get_dem_frame (env : Env) (box : list float) (out : string) (st : State) :
  exists dem lg st',
    get_dem env box out st = (Ok dem, st') /\
    st_staging st' = st_staging st /\
    extends st st' lg [EvDownloadAndStitch (posixpath.join out "dem.tif") box] /\
    (dem = "" \/ dem = posixpath.join out "dem.tif").
Proof.
  unfold get_dem, cop_dem_download_and_stitch, extends. run.
  destruct (download_and_stitch env _ box) as [e|]; simpl;
    (eexists _, _, _; split; [reflexivity|]; simpl;
     split; [reflexivity|]; split; [split; solve_ext|]; auto).
Qed.

Lemma run_sarsen_frame (env : Env) (s1 dem out : string) (st : State) :
  exists o lg evs st',
    run_sarsen env s1 dem out st = (Ok o, st') /\
    st_staging st' = st_staging st /\
    extends st st' lg evs /\
    Forall (loop_event dem out) evs /\
    sarsen_products evs = [s1] /\
    zip_opened evs = [] /\
    (o = "" \/ o = sarsen_output_file s1 out).
Proof.
  unfold run_sarsen, sarsen_Sentinel1SarProduct, sarsen_terrain_correction, extends.
  run.
  destruct (sentinel1_sar_product env s1) as [e1|]; simpl.
  - eexists _, _, _, _. split; [reflexivity|]. simpl.
    split; [reflexivity|]. split; [split; solve_ext|].
    split; [repeat constructor|]. split; [reflexivity|].
    split; [reflexivity|]. auto.
  - destruct (terrain_correction env s1 _ dem) as [e2|]; simpl;
      (eexists _, _, _, _; split; [reflexivity|]; simpl;
       split; [reflexivity|]; split; [split; solve_ext|];
       split; [repeat constructor|]; split; [reflexivity|];
       split; [reflexivity|]; auto).
Qed.

Lemma add_entry_keeps (d : list string) (n x : string) :
  In x d -> In x (add_entry d n).
Proof.
  unfold add_entry. destruct (existsb _ d); [auto|].
  intros H. apply in_or_app. now left.
Qed.

Lemma add_entries_keep (names : list string) :
  forall (d : list string) (x : string),
    In x d -> In x (fold_left add_entry names d).
Proof.
  induction names as [|n names IH]; intros d x H; [exact H|].
  cbn [fold_left]. apply IH, add_entry_keeps, H.
Qed.

(** What [add_entry] adds came from the names given. *)
Lemma add_entries_from (names : list string) :
  forall (d : list string) (x : string),
    In x (fold_left add_entry names d) -> In x d \/ In x names.
Proof.
  induction names as [|n names IH]; intros d x H; [now left|].
  cbn [fold_left] in H. destruct (IH _ _ H) as [Hd|Hn]; [|right; now right].
  unfold add_entry in Hd. destruct (existsb _ d); [now left|].
  apply in_app_or in Hd as [Hd|[<-|[]]]; [now left|right; now left].
Qed.

Lemma extract_zip_frame (env : Env) (p : string) (st : State) :
  exists r lg evs st',
    extract_zip env p st = (Ok r, st') /\
    extends st st' lg evs /\
    Forall archive_event evs /\
    sarsen_products evs = [] /\
    zip_opened evs = [p] /\
    (forall x, In x (st_staging st) -> In x (st_staging st')) /\
    (r = "" \/
     exists first rest,
       listdir_order env (st_staging st') = first :: rest /\
       r = posixpath.join (posixpath.abspath (cwd env) "temp_extract") first).
Proof.
  unfold extract_zip, zipfile_ZipFile, os_makedirs, extractall, os_listdir, extends.
  run.
  destruct (zip_archive env p) as [e|names fault]; simpl.
  - eexists _, _, _, _. split; [reflexivity|]. simpl.
    split; [split; solve_ext|]. split; [repeat constructor|].
    split; [reflexivity|]. split; [reflexivity|]. auto.
  - destruct (makedirs env _) as [e|]; simpl.
    + eexists _, _, _, _. split; [reflexivity|]. simpl.
      split; [split; solve_ext|]. split; [repeat constructor|].
      split; [reflexivity|]. split; [reflexivity|]. auto.
    + destruct fault as [e|]; simpl.
      * eexists _, _, _, _. split; [reflexivity|]. simpl.
        split; [split; solve_ext|]. split; [repeat constructor|].
        split; [reflexivity|]. split; [reflexivity|].
        split; [apply add_entries_keep|]. auto.
      * destruct (listdir_order env _) as [|first rest] eqn:Hl; simpl;
          (eexists _, _, _, _; split; [reflexivity|]; simpl;
           split; [split; solve_ext|]; split; [repeat constructor|];
           split; [reflexivity|]; split; [reflexivity|];
           split; [apply add_entries_keep|]).
        -- now left.
        -- right. exists first, rest. split; [exact Hl|reflexivity].
Qed.

Lemma archive_event_loop_event (dem out : string) (evs : list Event) :
  Forall archive_event evs -> Forall (loop_event dem out) evs.
Proof.
  intros H. eapply Forall_impl; [exact H|].
  intros ev. destruct ev; cbn; tauto.
Qed.

(** The loop over the products, state included: what it appends to
    [output_files] and the calls it makes. *)
Lemma for_products_frame (env : Env) (dem out : string) (ps : list string) :
  forall (acc : list string) (st : State),
  exists new lg evs st',
    for_products env dem out ps acc st = (Ok (acc ++ new), st') /\
    extends st st' lg evs /\
    Forall (loop_event dem out) evs /\
    zip_opened evs = ps /\
    length new = length (sarsen_products evs) /\
    Forall (fun o => o = "" \/
                     exists r, In r (sarsen_products evs) /\
                               o = sarsen_output_file r out) new /\
    (forall x, In x (st_staging st) -> In x (st_staging st')).
Proof.
  induction ps as [|p rest IH]; intros acc st.
  - exists [], [], [], st. unfold for_products, ret, extends.
    rewrite !app_nil_r. repeat split; auto.
  - unfold for_products. cbv beta iota fix. fold (for_products env).
    unfold bind at 1.
    destruct (extract_zip_frame env p st)
      as (r & lg1 & evs1 & st1 & Hex & Hext1 & Hev1 & Hs1 & Hz1 & Hst1 & _).
    rewrite Hex.
    destruct (String.eqb r "") eqn:Hr; cbn [negb].
    + unfold bind, logger. cbv beta iota.
      match goal with
      | |- context [for_products env dem out rest acc ?st2] =>
          destruct (IH acc st2)
            as (new & lg2 & evs2 & st' & Heq & Hext2 & Hev2 & Hz2 & Hlen & Hout & Hst2)
      end.
      exists new, (lg1 ++ [mkLog ERROR ("Error extracting zip file for " +:+ p)] ++ lg2),
        (evs1 ++ evs2), st'.
      rewrite Heq. split; [reflexivity|].
      destruct Hext1 as [Hl1 Ht1], Hext2 as [Hl2 Ht2]. cbn [st_log st_trace] in Hl2, Ht2.
      split; [split|].
      * rewrite Hl2, Hl1, <- !app_assoc. reflexivity.
      * rewrite Ht2, Ht1, <- !app_assoc. reflexivity.
      * split; [apply Forall_app; split;
                [now apply archive_event_loop_event|exact Hev2]|].
        rewrite zip_opened_app, sarsen_products_app, Hz1, Hs1, Hz2.
        cbn [app]. repeat split; auto.
    + unfold bind at 1.
      destruct (run_sarsen_frame env r dem out st1)
        as (o & lg2 & evs2 & st2 & Hrun & Hst12 & Hext2 & Hev2 & Hs2 & Hz2 & Ho).
      rewrite Hrun.
      destruct (IH (acc ++ [o]) st2)
        as (new & lg3 & evs3 & st' & Heq & Hext3 & Hev3 & Hz3 & Hlen & Hout & Hst3).
      exists (o :: new), (lg1 ++ lg2 ++ lg3), (evs1 ++ evs2 ++ evs3), st'.
      rewrite Heq, <- app_assoc. split; [reflexivity|].
      split; [exact (extends_trans _ _ _ _ _ _ _ Hext1
                       (extends_trans _ _ _ _ _ _ _ Hext2 Hext3))|].
      split; [repeat (apply Forall_app; split);
              [now apply archive_event_loop_event|exact Hev2|exact Hev3]|].
      rewrite !zip_opened_app, !sarsen_products_app, Hz1, Hs1, Hz2, Hs2, Hz3.
      cbn [app length]. split; [reflexivity|]. split; [now rewrite Hlen|].
      split.
      * constructor.
        -- destruct Ho as [->| ->]; [now left|]. right. exists r.
           split; [now left|reflexivity].
        -- eapply Forall_impl; [exact Hout|]. intros x [->|(q & Hq & ->)];
             [now left|]. right. exists q. split; [now right|reflexivity].
      * intros x Hx. apply Hst3. rewrite Hst12. now apply Hst1.
Qed.

(** ** The same steps, with what they return *)

Lemma get_dem_result (env : Env) (box : list float) (out : string) (st : State) :
  fst (get_dem env box out st) = Ok (dem_path env box out).
Proof.
  unfold get_dem, cop_dem_download_and_stitch, dem_path. run.
  destruct (download_and_stitch env _ box) as [e|]; reflexivity.
Qed.

Lemma run_sarsen_result (env : Env) (s1 dem out : string) (st : State) :
  exists st1,
    run_sarsen env s1 dem out st = (Ok (corrected_path env s1 dem out), st1) /\
    st_staging st1 = st_staging st /\
    sarsen_products (st_trace st1) = sarsen_products (st_trace st) ++ [s1] /\
    corrections (st_trace st1)
    = corrections (st_trace st) ++ attempted env dem out [s1].
Proof.
  unfold run_sarsen, sarsen_Sentinel1SarProduct, sarsen_terrain_correction,
    corrected_path, attempted.
  run. cbn [List.filter].
  destruct (sentinel1_sar_product env s1) as [e1|]; simpl.
  - eexists. split; [reflexivity|]. simpl.
    rewrite !sarsen_products_app, !corrections_app. cbn.
    now rewrite !app_nil_r.
  - destruct (terrain_correction env s1 _ dem) as [e2|]; simpl;
      (eexists; split; [reflexivity|]; simpl;
       rewrite <- ?app_assoc, !sarsen_products_app, !corrections_app; cbn;
       now rewrite ?app_nil_r).
Qed.

Lemma extract_zip_result (env : Env) (p : string) (st : State) :
  exists st1,
    extract_zip env p st = (Ok (fst (extraction env p (st_staging st))), st1) /\
    st_staging st1 = snd (extraction env p (st_staging st)) /\
    sarsen_products (st_trace st1) = sarsen_products (st_trace st) /\
    corrections (st_trace st1) = corrections (st_trace st).
Proof.
  unfold extract_zip, zipfile_ZipFile, os_makedirs, extractall, os_listdir,
    extraction.
  run.
  destruct (zip_archive env p) as [e|names fault]; simpl.
  - eexists. split; [reflexivity|]. simpl.
    rewrite ?sarsen_products_app, ?corrections_app. cbn.
    now rewrite ?app_nil_r.
  - destruct (makedirs env _) as [e|]; simpl.
    + eexists. split; [reflexivity|]. simpl.
      rewrite <- ?app_assoc, ?sarsen_products_app, ?corrections_app. cbn.
      now rewrite ?app_nil_r.
    + destruct fault as [e|]; simpl.
      * eexists. split; [reflexivity|]. simpl.
        rewrite <- ?app_assoc, ?sarsen_products_app, ?corrections_app. cbn.
        now rewrite ?app_nil_r.
      * destruct (listdir_order env _) as [|first rest]; simpl;
          (eexists; split; [reflexivity|]; simpl;
           rewrite <- ?app_assoc, ?sarsen_products_app, ?corrections_app; cbn;
           now rewrite ?app_nil_r).
Qed.

Lemma attempted_app (env : Env) (dem out : string) (a b : list string) :
  attempted env dem out (a ++ b)
  = attempted env dem out a ++ attempted env dem out b.
Proof. unfold attempted. now rewrite List.filter_app, map_app. Qed.

(** The loop over the products: the list it returns, the paths it hands to
    sarsen and the terrain corrections it attempts. *)
Lemma for_products_result (env : Env) (dem out : string) (ps : list string) :
  forall (acc : list string) (st : State),
  exists st',
    for_products env dem out ps acc st
    = (Ok (acc ++ loop_outputs env dem out ps (st_staging st)), st') /\
    sarsen_products (st_trace st')
    = sarsen_products (st_trace st) ++ handed env ps (st_staging st) /\
    corrections (st_trace st')
    = corrections (st_trace st)
      ++ attempted env dem out (handed env ps (st_staging st)).
Proof.
  induction ps as [|p rest IH]; intros acc st.
  - exists st. unfold for_products, ret, loop_outputs, attempted. cbn.
    now rewrite !app_nil_r.
  - unfold for_products. cbv beta iota fix. fold (for_products env).
    unfold bind at 1.
    destruct (extract_zip_result env p st) as (st1 & Hex & Hst1 & Hs1 & Hc1).
    rewrite Hex. unfold loop_outputs. cbn [handed].
    destruct (String.eqb (fst (extraction env p (st_staging st))) "") eqn:Hr;
      cbn [negb].
    + unfold bind, logger. cbv beta iota.
      match goal with
      | |- context [for_products env dem out rest acc ?st2] =>
          destruct (IH acc st2) as (st' & Heq & Hs & Hc)
      end.
      cbn [st_staging st_trace] in Heq, Hs, Hc.
      exists st'. rewrite Heq, Hs, Hc, Hst1, Hs1, Hc1. auto.
    + unfold bind at 1.
      destruct (run_sarsen_result env (fst (extraction env p (st_staging st)))
                  dem out st1) as (st2 & Hrun & Hst2 & Hs2 & Hc2).
      rewrite Hrun.
      destruct (IH (acc ++ [corrected_path env
                              (fst (extraction env p (st_staging st))) dem out]) st2)
        as (st' & Heq & Hs & Hc).
      exists st'. rewrite Heq, Hs, Hc, Hst2, Hst1, Hs2, Hc2, Hs1, Hc1.
      unfold loop_outputs. cbn [map].
      change (?x :: handed env rest ?d) with ([x] ++ handed env rest d).
      rewrite attempted_app, <- !app_assoc. auto.
Qed.

(** ** The catalog writer, case by case *)

Lemma create_missing_asset (env : Env) (output_dir : string) (item : Item)
    (box : list float) (asset_name asset_path : string) (st : State) :
  length box = 4 ->
  item_assets item !! asset_name = None ->
  create_stage_out_catalog env output_dir item box asset_name asset_path st
  = (Raise (Exc (KeyError asset_name)),
     mkState (st_log st ++ [mkLog INFO "Creating STAC item {output_stac_item_path}"])
       (st_staging st) (st_trace st)).
Proof.
  intros Hbox Hno.
  destruct box as [|a [|b [|c [|d [|? ?]]]]]; try discriminate.
  unfold create_stage_out_catalog, Item_set_self_href. run.
  rewrite lookup_fmap, Hno. reflexivity.
Qed.

Lemma create_missing_file (env : Env) (output_dir : string) (item : Item)
    (box : list float) (asset_name asset_path : string) (original : Asset)
    (x : exc) (st : State) :
  length box = 4 ->
  item_assets item !! asset_name = Some original ->
  getsize env (posixpath.abspath (cwd env) asset_path) = inl x ->
  create_stage_out_catalog env output_dir item box asset_name asset_path st
  = (Raise (Exc x),
     mkState (st_log st ++ [mkLog INFO "Creating STAC item {output_stac_item_path}"])
       (st_staging st)
       (st_trace st ++ [EvGetsize (posixpath.abspath (cwd env) asset_path)])).
Proof.
  intros Hbox Hasset Hsize.
  destruct box as [|a [|b [|c [|d [|? ?]]]]]; try discriminate.
  unfold create_stage_out_catalog, Item_set_self_href, os_path_getsize. run.
  rewrite lookup_fmap, Hasset. simpl. rewrite Hsize. reflexivity.
Qed.

(** Whatever [create_stage_out_catalog] does, it only adds to the log, asks
    for a file size and saves; it leaves the staging directory alone. *)
Lemma create_stage_out_catalog_frame (env : Env) (output_dir : string)
    (item : Item) (box : list float) (asset_name asset_path : string)
    (st : State) :
  exists r lg evs st',
    create_stage_out_catalog env output_dir item box asset_name asset_path st
    = (r, st') /\
    extends st st' lg evs /\
    Forall writer_event evs /\
    st_staging st' = st_staging st /\
    (forall c, r = Ok c ->
       evs = [EvGetsize (posixpath.abspath (cwd env) asset_path); EvSave c] /\
       exists out_item a g,
         c = mkCatalog "SARsen output catalog" "SARsen output catalog"
               (Some (stored_self_href env (posixpath.join output_dir "catalog.json")))
               (Some SELF_CONTAINED) [] [out_item] /\
         item_id out_item = item_id item /\
         item_bbox out_item = Some box /\
         bbox_to_geojson box = inr g /\
         item_geometry out_item = Some g /\
         item_self_href out_item = Some (output_item_path env output_dir item) /\
         item_properties out_item
         = <["title" := JStr (posixpath.basename asset_path)]> (item_properties item) /\
         item_assets out_item = {[ "output" := a ]}) /\
    (forall e, r = Raise e -> saved evs = [] \/ exists c x, catalog_save env c = Some x).
Proof.
  unfold create_stage_out_catalog, Item_set_self_href, os_path_getsize,
    Catalog_save, Item_make_asset_hrefs_relative, extends, output_item_path.
  destruct (bbox_to_geojson box) as [e|g] eqn:Hg; run.
  - eexists _, _, _, _. split; [reflexivity|]. simpl.
    split; [split; solve_ext|]. split; [constructor|]. split; [reflexivity|].
    split; [discriminate|]. intros _ _. now left.
  - rewrite lookup_fmap.
    destruct (item_assets item !! asset_name) as [original|]; simpl.
    + destruct (getsize env _) as [x|size]; simpl.
      * eexists _, _, _, _. split; [reflexivity|]. simpl.
        split; [split; solve_ext|]. split; [repeat constructor|].
        split; [reflexivity|]. split; [discriminate|]. intros _ _. now left.
      * match goal with
        | |- context [catalog_save env ?c] =>
            destruct (catalog_save env c) as [x|] eqn:Hsave
        end; simpl.
        -- eexists _, _, _, _. split; [reflexivity|]. simpl.
           split; [split; solve_ext|]. split; [repeat constructor|].
           split; [reflexivity|]. split; [discriminate|]. intros _ _. right. eauto.
        -- eexists _, _, _, _. split; [reflexivity|]. simpl.
           split; [split; solve_ext|]. split; [repeat constructor|].
           split; [reflexivity|]. split; [|discriminate].
           intros c Hc. injection Hc as <-. split; [reflexivity|].
           eexists _, _, g. split; [reflexivity|]. simpl.
           rewrite map_fmap_singleton. repeat split.
    + eexists _, _, _, _. split; [reflexivity|]. simpl.
      split; [split; solve_ext|]. split; [constructor|]. split; [reflexivity|].
      split; [discriminate|]. intros _ _. now left.
Qed.

(** ** A run of [main], step by step *)

Lemma views_of_opens (docs : list string) :
  zip_opened (map EvOpen docs) = [] /\
  sarsen_products (map EvOpen docs) = [] /\
  saved (map EvOpen docs) = [] /\
  downloads (map EvOpen docs) = [] /\
  corrections (map EvOpen docs) = [].
Proof. induction docs as [|d docs IH]; cbn; auto. Qed.

Lemma views_of_loop (dem out : string) (evs : list Event) :
  Forall (loop_event dem out) evs ->
  saved evs = [] /\ downloads evs = [] /\
  Forall (fun c => c.2 = dem /\ c.1.2 = sarsen_output_file c.1.1 out) (corrections evs).
Proof.
  induction 1 as [|ev evs Hev _ (IH1 & IH2 & IH3)]; [cbn; auto|].
  destruct ev; cbn in *; try tauto.
  repeat split; auto; try (constructor; [cbn; tauto|exact IH3]).
Qed.

Lemma views_of_writer (evs : list Event) :
  Forall writer_event evs ->
  zip_opened evs = [] /\ sarsen_products evs = [] /\
  downloads evs = [] /\ corrections evs = [].
Proof.
  induction 1 as [|ev evs Hev _ IH]; [cbn; auto|].
  destruct ev; cbn in *; tauto.
Qed.

Lemma sarsen_products_bound (dem out : string) (ps : list string) (env : Env)
    (acc : list string) (st st' : State) (outs : list string) :
  for_products env dem out ps acc st = (Ok outs, st') ->
  exists ex, sarsen_products (st_trace st') = sarsen_products (st_trace st) ++ ex /\
             length ex <= length ps.
Proof.
  intros H.
  destruct (for_products_total env dem out ps acc st)
    as (new & ex & st2 & Heq & _ & Hs & _ & Hlen & _).
  rewrite Heq in H. injection H as _ <-. eauto.
Qed.

(** A run with arguments that parse and name the catalog folder: the state
    [st4] it is in before the catalog assembly, and how it ends from there. *)
Lemma main_run (env : Env) (raw : RawCli) (args : Args) (folder : string)
    (st : State) :
  parse_args raw st = (Ok args, st) ->
  stac_catalog_folder args = Some folder ->
  exists dem new lg evs st4,
    (dem = dem_path env (bbox args) (out_dir args) /\
     new = loop_outputs env dem (out_dir args)
             (discovered_paths env (posixpath.join folder "catalog.json")
                (stac_asset_name args))
             (st_staging st) /\
     sarsen_products evs
     = handed env
         (discovered_paths env (posixpath.join folder "catalog.json")
            (stac_asset_name args))
         (st_staging st) /\
     corrections evs
     = attempted env dem (out_dir args)
         (handed env
            (discovered_paths env (posixpath.join folder "catalog.json")
               (stac_asset_name args))
            (st_staging st))) /\
    (dem = "" \/ dem = posixpath.join (out_dir args) "dem.tif") /\
    extends st st4 lg
      (map EvOpen (grd_opened env (posixpath.join folder "catalog.json"))
       ++ [EvDownloadAndStitch (posixpath.join (out_dir args) "dem.tif") (bbox args)]
       ++ evs
       ++ map EvOpen (retrieve_opened env (posixpath.join folder "catalog.json") "item")) /\
    In completion_record lg /\
    Forall (loop_event dem (out_dir args)) evs /\
    zip_opened evs
    = discovered_paths env (posixpath.join folder "catalog.json") (stac_asset_name args) /\
    length new = length (sarsen_products evs) /\
    length (sarsen_products evs) <= length (zip_opened evs) /\
    Forall (fun o => o = "" \/
                     exists r, In r (sarsen_products evs) /\
                               o = sarsen_output_file r (out_dir args)) new /\
    main env raw st
    = match retrieved env (posixpath.join folder "catalog.json") "item" with
      | None =>
          (Raise (Exc (AttributeError "'NoneType' object has no attribute 'clone'")),
           st4)
      | Some item =>
          match new with
          | [] => (Raise (Exc (IndexError "list index out of range")), st4)
          | first :: _ =>
              match create_stage_out_catalog env (out_dir args) (Item_clone item)
                      (bbox args) (stac_asset_name args) first st4 with
              | (Ok _, st5) =>
                  (Ok tt,
                   mkState (st_log st5 ++ [mkLog INFO ("main" +:+ ": %.1f seconds")])
                     (st_staging st5) (st_trace st5))
              | (Raise e, st5) => (Raise e, st5)
              end
          end
      end.
Proof.
  intros Hparse Hfolder.
  set (P := posixpath.join folder "catalog.json").
  unfold main, logtime. unfold bind at 1. unfold bind at 1. rewrite Hparse.
  unfold bind at 1. rewrite Hfolder. unfold ret at 1. unfold bind at 1.
  fold P. rewrite get_s1_grd_path_state. unfold bind at 1.
  match goal with
  | |- context [get_dem env ?b ?o ?s] =>
      destruct (get_dem_frame env b o s)
        as (dem & lg1 & st2 & Hdem & Hstg & [Hl2 Ht2] & Hd);
      pose proof (get_dem_result env b o s) as Hpin
  end.
  rewrite Hdem in Hpin. cbn [fst] in Hpin. injection Hpin as Hpin.
  rewrite Hdem. unfold bind at 1.
  destruct (for_products_frame env dem (out_dir args)
              (discovered_paths env P (stac_asset_name args)) [] st2)
    as (new & lg2 & evs & st3 & Hloop & [Hl3 Ht3] & Hev & Hz & Hlen & Hout & _).
  cbn [app] in Hloop.
  destruct (for_products_result env dem (out_dir args)
              (discovered_paths env P (stac_asset_name args)) [] st2)
    as (st3' & Hres & Hhanded & Hattempted).
  rewrite Hloop in Hres. cbn [app] in Hres. injection Hres as Hnew <-.
  rewrite Ht3, sarsen_products_app in Hhanded. apply app_inv_head in Hhanded.
  rewrite Ht3, corrections_app in Hattempted. apply app_inv_head in Hattempted.
  rewrite Hstg in Hnew, Hhanded, Hattempted. cbn [st_staging] in Hnew, Hhanded, Hattempted.
  destruct (sarsen_products_bound _ _ _ _ _ _ _ _ Hloop) as (ex & Hex & Hexlen).
  rewrite Ht3, sarsen_products_app in Hex. apply app_inv_head in Hex. subst ex.
  rewrite Hloop. unfold bind at 1. unfold logger at 1. unfold bind at 1.
  rewrite retrieve_stac_item_by_rel_state.
  cbn [st_log st_staging st_trace] in *.
  exists dem, new,
    (grd_log env P (stac_asset_name args) ++ lg1 ++ lg2 ++ [completion_record]
     ++ retrieve_log env P "item"),
    evs,
    (mkState ((st_log st3 ++ [completion_record]) ++ retrieve_log env P "item")
       (st_staging st3)
       (st_trace st3 ++ map EvOpen (retrieve_opened env P "item"))).
  split; [auto|]. split; [exact Hd|].
  split; [|split; [|split; [exact Hev|split; [exact Hz|split; [exact Hlen|
    split; [now rewrite Hz|split; [exact Hout|]]]]]]].
  - split; cbn [st_log st_trace].
    + rewrite Hl3, Hl2. cbn [st_log]. rewrite <- !app_assoc. reflexivity.
    + rewrite Ht3, Ht2. cbn [st_trace]. rewrite <- !app_assoc. reflexivity.
  - apply in_or_app. right. apply in_or_app. right. apply in_or_app. right.
    now left.
  - unfold bind at 1.
    destruct (retrieved env P "item") as [item|]; [|reflexivity].
    unfold ret at 1. unfold bind at 1.
    destruct new as [|first rest]; [reflexivity|].
    unfold ret at 1. unfold bind at 1.
    destruct (create_stage_out_catalog _ _ _ _ _ _ _) as [[c|e] st5]; reflexivity.
Qed.

Lemma retrieved_none_no_paths (env : Env) (P name : string) :
  retrieved env P "item" = None -> discovered_paths env P name = [].
Proof.
  unfold retrieved, discovered_paths. intros H.
  destruct (read_catalog env P) as [e|catalog]; [reflexivity|].
  destruct (fst (links_outcome env P name (cat_links catalog))) as [|p ps] eqn:Hp;
    [reflexivity|].
  assert (Hne : fst (links_outcome env P name (cat_links catalog)) <> [])
    by (rewrite Hp; discriminate).
  destruct (links_outcome_first_item _ _ _ _ Hne) as (link & item & Hfind & Hread).
  rewrite Hfind, Hread in H. discriminate.
Qed.

(** Every run with arguments that parse and name the catalog folder, however
    it ends: what it logged and the calls it made, in order. *)
Lemma main_end (env : Env) (raw : RawCli) (args : Args) (folder : string)
    (st st' : State) (r : result unit) :
  parse_args raw st = (Ok args, st) ->
  stac_catalog_folder args = Some folder ->
  main env raw st = (r, st') ->
  exists dem lg evs evs',
    (dem = dem_path env (bbox args) (out_dir args) /\
     corrections evs
     = attempted env dem (out_dir args)
         (handed env
            (discovered_paths env (posixpath.join folder "catalog.json")
               (stac_asset_name args))
            (st_staging st))) /\
    extends st st' lg
      (map EvOpen (grd_opened env (posixpath.join folder "catalog.json"))
       ++ [EvDownloadAndStitch (posixpath.join (out_dir args) "dem.tif") (bbox args)]
       ++ evs
       ++ map EvOpen (retrieve_opened env (posixpath.join folder "catalog.json") "item")
       ++ evs') /\
    In completion_record lg /\
    Forall (loop_event dem (out_dir args)) evs /\
    Forall writer_event evs'.
Proof.
  intros Hparse Hfolder Hmain.
  destruct (main_run env raw args folder st Hparse Hfolder)
    as (dem & new & lg & evs & st4 & (Hp1 & _ & _ & Hp4) & _ & [Hl4 Ht4] & Hin & Hev
        & _ & _ & _ & _ & Hrun).
  assert (Hd := conj Hp1 Hp4).
  rewrite Hrun in Hmain. clear Hrun.
  assert (Hstop : forall x, (x, st4) = (r, st') ->
            exists dem lg evs evs',
              (dem = dem_path env (bbox args) (out_dir args) /\
               corrections evs
               = attempted env dem (out_dir args)
                   (handed env
                      (discovered_paths env (posixpath.join folder "catalog.json")
                         (stac_asset_name args))
                      (st_staging st))) /\
              extends st st' lg
                (map EvOpen (grd_opened env (posixpath.join folder "catalog.json"))
                 ++ [EvDownloadAndStitch (posixpath.join (out_dir args) "dem.tif")
                       (bbox args)]
                 ++ evs
                 ++ map EvOpen
                      (retrieve_opened env (posixpath.join folder "catalog.json") "item")
                 ++ evs') /\
              In completion_record lg /\
              Forall (loop_event dem (out_dir args)) evs /\
              Forall writer_event evs').
  { intros x Hx. injection Hx as _ <-. exists dem, lg, evs, [].
    split; [exact Hd|]. split; [split; [exact Hl4|now rewrite !app_nil_r]|].
    split; [exact Hin|]. split; [exact Hev|constructor]. }
  destruct (retrieved env _ "item") as [item|]; [|eapply Hstop, Hmain].
  destruct new as [|first rest]; [eapply Hstop, Hmain|].
  destruct (create_stage_out_catalog_frame env (out_dir args) (Item_clone item)
              (bbox args) (stac_asset_name args) first st4)
    as (rc & lg5 & evs5 & st5 & Hc & [Hl5 Ht5] & Hw & _).
  rewrite Hc in Hmain.
  destruct rc as [c|e]; injection Hmain as _ <-.
  - exists dem, (lg ++ lg5 ++ [mkLog INFO ("main" +:+ ": %.1f seconds")]), evs, evs5.
    split; [exact Hd|]. split; [split; cbn [st_log st_trace]|].
    + rewrite Hl5, Hl4, <- !app_assoc. reflexivity.
    + rewrite Ht5, Ht4, <- !app_assoc. reflexivity.
    + split; [apply in_or_app; now left|]. split; assumption.
  - exists dem, (lg ++ lg5), evs, evs5.
    split; [exact Hd|]. split; [split|].
    + rewrite Hl5, Hl4, <- !app_assoc. reflexivity.
    + rewrite Ht5, Ht4, <- !app_assoc. reflexivity.
    + split; [apply in_or_app; now left|]. split; assumption.
Qed.

(** ** Runs of [main] *)

(** X8: when no item can be retrieved from the catalog (the catalog cannot be
    read, has no item link, or its first item link cannot be read), a run
    with valid arguments still downloads the DEM, then opens no archive,
    never calls sarsen, saves no catalog, and ends with the [AttributeError]
    of [.clone()] on [None]. *)
Theorem X8_run_without_representative_item :
  forall (env : Env) (raw : RawCli) (args : Args) (folder : string) (st : State),
    parse_args raw st = (Ok args, st) ->
    stac_catalog_folder args = Some folder ->
    retrieved env (posixpath.join folder "catalog.json") "item" = None ->
    exists st',
      main env raw st
      = (Raise (Exc (AttributeError "'NoneType' object has no attribute 'clone'")), st') /\
      downloads (st_trace st')
      = downloads (st_trace st)
        ++ [(posixpath.join (out_dir args) "dem.tif", bbox args)] /\
      zip_opened (st_trace st') = zip_opened (st_trace st) /\
      sarsen_products (st_trace st') = sarsen_products (st_trace st) /\
      saved (st_trace st') = saved (st_trace st).
Proof.
  intros env raw args folder st Hparse Hfolder Hnone.
  destruct (main_run env raw args folder st Hparse Hfolder)
    as (dem & new & lg & evs & st4 & Hpin & _ & [_ Ht4] & _ & Hev & Hz & _ & Hle & _ & Hrun).
  rewrite Hnone in Hrun. exists st4. split; [exact Hrun|].
  rewrite (retrieved_none_no_paths _ _ (stac_asset_name args) Hnone) in Hz.
  rewrite Hz in Hle. cbn [length] in Hle.
  assert (Hs : sarsen_products evs = [])
    by (destruct (sarsen_products evs); [reflexivity|cbn in Hle; lia]).
  destruct (views_of_loop _ _ _ Hev) as (Hsv & Hdl & _).
  destruct (views_of_opens (grd_opened env (posixpath.join folder "catalog.json")))
    as (Ho1 & Ho2 & Ho3 & Ho4 & _).
  destruct (views_of_opens
              (retrieve_opened env (posixpath.join folder "catalog.json") "item"))
    as (Hr1 & Hr2 & Hr3 & Hr4 & _).
  rewrite Ht4.
  rewrite !downloads_app, !zip_opened_app, !sarsen_products_app, !saved_app.
  rewrite Ho1, Ho2, Ho3, Ho4, Hr1, Hr2, Hr3, Hr4, Hz, Hs, Hsv, Hdl.
  cbn. rewrite !app_nil_r. auto.
Qed.

Lemma X8_run_without_representative_item_witness :
  exists st',
    main no_item_world (cli_for (Some "/in")) initial_state
    = (Raise (Exc (AttributeError "'NoneType' object has no attribute 'clone'")), st') /\
    downloads (st_trace st')
    = downloads (st_trace initial_state)
      ++ [(posixpath.join "/out" "dem.tif", spec_bbox)] /\
    zip_opened (st_trace st') = zip_opened (st_trace initial_state) /\
    sarsen_products (st_trace st') = sarsen_products (st_trace initial_state) /\
    saved (st_trace st') = saved (st_trace initial_state).
Proof.
  apply (X8_run_without_representative_item no_item_world (cli_for (Some "/in"))
           (mkArgs (Some "/in") spec_bbox "PRODUCT" "/out") "/in" initial_state);
    reflexivity.
Defined.

(** X9: when the item of the first item link lacks the requested asset, a run
    never saves a catalog, even when a later item had the asset and its
    product was corrected: it ends with the [IndexError] of [output_files[0]]
    when the loop left [output_files] empty, and with the [KeyError] of the
    asset lookup otherwise. *)
Theorem X9_representative_item_without_asset :
  forall (env : Env) (raw : RawCli) (args : Args) (folder : string) (item : Item)
         (st : State),
    parse_args raw st = (Ok args, st) ->
    stac_catalog_folder args = Some folder ->
    retrieved env (posixpath.join folder "catalog.json") "item" = Some item ->
    item_assets item !! stac_asset_name args = None ->
    exists st',
      main env raw st
      = (Raise (Exc (match loop_outputs env
                             (dem_path env (bbox args) (out_dir args))
                             (out_dir args)
                             (discovered_paths env
                                (posixpath.join folder "catalog.json")
                                (stac_asset_name args))
                             (st_staging st) with
                     | [] => IndexError "list index out of range"
                     | _ :: _ => KeyError (stac_asset_name args)
                     end)),
         st') /\
      saved (st_trace st') = saved (st_trace st).
Proof.
  intros env raw args folder item st Hparse Hfolder Hsome Hno.
  destruct (parse_args_outcome raw st) as [(args' & Hp' & Hbox & _)|(code & Hp')];
    rewrite Hparse in Hp'; [|discriminate].
  injection Hp' as <-.
  destruct (main_run env raw args folder st Hparse Hfolder)
    as (dem & new & lg & evs & st4 & (-> & Hnew & _) & _ & [_ Ht4] & _ & Hev
        & _ & _ & _ & _ & Hrun).
  rewrite Hsome in Hrun. rewrite <- Hnew.
  assert (Hsaved : saved (st_trace st4) = saved (st_trace st)).
  { destruct (views_of_loop _ _ _ Hev) as (Hsv & _).
    destruct (views_of_opens (grd_opened env (posixpath.join folder "catalog.json")))
      as (_ & _ & Ho3 & _).
    destruct (views_of_opens
                (retrieve_opened env (posixpath.join folder "catalog.json") "item"))
      as (_ & _ & Hr3 & _).
    rewrite Ht4, !saved_app, Ho3, Hr3, Hsv. cbn. now rewrite !app_nil_r. }
  destruct new as [|first rest].
  - exists st4. split; [exact Hrun|exact Hsaved].
  - rewrite create_missing_asset in Hrun; [|exact Hbox|].
    + eexists. split; [exact Hrun|exact Hsaved].
    + unfold Item_clone. cbn [item_assets]. now rewrite lookup_fmap, Hno.
Qed.

Lemma X9_representative_item_without_asset_witness :
  exists st',
    main skipping_world (cli_for (Some "/in")) initial_state
    = (Raise (Exc (match loop_outputs skipping_world
                           (dem_path skipping_world
                              (bbox (mkArgs (Some "/in") spec_bbox "PRODUCT" "/out"))
                              (out_dir (mkArgs (Some "/in") spec_bbox "PRODUCT" "/out")))
                           (out_dir (mkArgs (Some "/in") spec_bbox "PRODUCT" "/out"))
                           (discovered_paths skipping_world
                              (posixpath.join "/in" "catalog.json")
                              (stac_asset_name
                                 (mkArgs (Some "/in") spec_bbox "PRODUCT" "/out")))
                           (st_staging initial_state) with
                   | [] => IndexError "list index out of range"
                   | _ :: _ =>
                       KeyError (stac_asset_name
                                   (mkArgs (Some "/in") spec_bbox "PRODUCT" "/out"))
                   end)),
       st') /\
    saved (st_trace st') = saved (st_trace initial_state).
Proof.
  apply (X9_representative_item_without_asset skipping_world (cli_for (Some "/in"))
           (mkArgs (Some "/in") spec_bbox "PRODUCT" "/out") "/in" (bare_item "S0")
           initial_state); reflexivity.
Defined.

(** X10: a run that returns has saved exactly one catalog.  That catalog
    holds exactly one item, with the single asset ["output"], whatever the
    number of products corrected.  The loop left [output_files] with a first
    element, and the item is titled with the file name of that element: what
    [run_sarsen] returned for the first product that could be extracted,
    which is the empty path or the output path of a product handed to
    sarsen. *)
Theorem X10_completed_run_saves_one_catalog :
  forall (env : Env) (raw : RawCli) (args : Args) (folder : string)
         (st st' : State),
    parse_args raw st = (Ok args, st) ->
    stac_catalog_folder args = Some folder ->
    main env raw st = (Ok tt, st') ->
    exists catalog out_item a first rest,
      loop_outputs env (dem_path env (bbox args) (out_dir args)) (out_dir args)
        (discovered_paths env (posixpath.join folder "catalog.json")
           (stac_asset_name args))
        (st_staging st)
      = first :: rest /\
      saved (st_trace st') = saved (st_trace st) ++ [catalog] /\
      cat_items catalog = [out_item] /\
      item_assets out_item = {[ "output" := a ]} /\
      item_properties out_item !! "title" = Some (JStr (posixpath.basename first)) /\
      (first = "" \/
       exists r, In r (sarsen_products (st_trace st')) /\
                 first = sarsen_output_file r (out_dir args)).
Proof.
  intros env raw args folder st st' Hparse Hfolder Hmain.
  destruct (main_run env raw args folder st Hparse Hfolder)
    as (dem & new & lg & evs & st4 & (-> & Hnew & _) & _ & [_ Ht4] & _ & Hev
        & _ & _ & _ & Hout & Hrun).
  rewrite Hrun in Hmain. clear Hrun.
  destruct (retrieved env _ "item") as [item|]; [|discriminate].
  destruct new as [|first rest]; [discriminate|].
  destruct (create_stage_out_catalog_frame env (out_dir args) (Item_clone item)
              (bbox args) (stac_asset_name args) first st4)
    as (rc & lg5 & evs5 & st5 & Hc & [_ Ht5] & _ & _ & Hok & _).
  rewrite Hc in Hmain. destruct rc as [c|e]; [|discriminate].
  injection Hmain as <-. cbn [st_trace].
  destruct (Hok c eq_refl) as (-> & out_item & a & g & -> & _ & _ & _ & _ & _ & Hprops & Hassets).
  exists (mkCatalog "SARsen output catalog" "SARsen output catalog"
            (Some (stored_self_href env (posixpath.join (out_dir args) "catalog.json")))
            (Some SELF_CONTAINED) [] [out_item]), out_item, a, first, rest.
  destruct (views_of_loop _ _ _ Hev) as (Hsv & _).
  destruct (views_of_opens (grd_opened env (posixpath.join folder "catalog.json")))
    as (_ & _ & Ho3 & _).
  destruct (views_of_opens
              (retrieve_opened env (posixpath.join folder "catalog.json") "item"))
    as (_ & _ & Hr3 & _).
  split; [now rewrite <- Hnew|].
  split; [|split; [reflexivity|split; [exact Hassets|split]]].
  - rewrite Ht5, Ht4, !saved_app, Ho3, Hr3, Hsv. cbn. now rewrite !app_nil_r.
  - rewrite Hprops. apply lookup_insert_eq.
  - apply Forall_cons in Hout as [[->|(r & Hr & ->)] _]; [now left|].
    right. exists r. split; [|reflexivity].
    rewrite Ht5, Ht4, !sarsen_products_app. apply in_or_app. left.
    apply in_or_app. right. apply in_or_app. right. apply in_or_app. right.
    apply in_or_app. left. exact Hr.
Qed.

Lemma X10_completed_run_saves_one_catalog_witness :
  exists catalog out_item a first rest,
    loop_outputs complete_world
      (dem_path complete_world
         (bbox (mkArgs (Some "/in") spec_bbox "PRODUCT" "/out"))
         (out_dir (mkArgs (Some "/in") spec_bbox "PRODUCT" "/out")))
      (out_dir (mkArgs (Some "/in") spec_bbox "PRODUCT" "/out"))
      (discovered_paths complete_world (posixpath.join "/in" "catalog.json")
         (stac_asset_name (mkArgs (Some "/in") spec_bbox "PRODUCT" "/out")))
      (st_staging initial_state)
    = first :: rest /\
    saved (st_trace (snd (main complete_world (cli_for (Some "/in")) initial_state)))
    = saved (st_trace initial_state) ++ [catalog] /\
    cat_items catalog = [out_item] /\
    item_assets out_item = {[ "output" := a ]} /\
    item_properties out_item !! "title" = Some (JStr (posixpath.basename first)) /\
    (first = "" \/
     exists r,
       In r (sarsen_products
               (st_trace (snd (main complete_world (cli_for (Some "/in")) initial_state)))) /\
       first = sarsen_output_file r
                 (out_dir (mkArgs (Some "/in") spec_bbox "PRODUCT" "/out"))).
Proof.
  apply (X10_completed_run_saves_one_catalog complete_world (cli_for (Some "/in"))
           (mkArgs (Some "/in") spec_bbox "PRODUCT" "/out") "/in" initial_state).
  - reflexivity.
  - reflexivity.
  - vm_compute. reflexivity.
Defined.

(** X11: one DEM for the whole run.  Every run with valid arguments calls the
    DEM download exactly once, for [out_dir/dem.tif] and the bounding box of
    the command line.  Its terrain corrections are, in order, one for each
    extracted path handed to [run_sarsen] that sarsen opens as a product;
    every one of them is given the one path [get_dem] returned, which is
    [out_dir/dem.tif] after a download that worked and the empty path after
    one that failed, and writes to the output path of its product. *)
Theorem X11_one_dem_for_all_corrections :
  forall (env : Env) (raw : RawCli) (args : Args) (folder : string)
         (st st' : State) (r : result unit),
    parse_args raw st = (Ok args, st) ->
    stac_catalog_folder args = Some folder ->
    main env raw st = (r, st') ->
    downloads (st_trace st')
    = downloads (st_trace st)
      ++ [(posixpath.join (out_dir args) "dem.tif", bbox args)] /\
    corrections (st_trace st')
    = corrections (st_trace st)
      ++ map (fun s1 =>
                (s1, sarsen_output_file s1 (out_dir args),
                 match download_and_stitch env
                         (posixpath.join (out_dir args) "dem.tif") (bbox args) with
                 | None => posixpath.join (out_dir args) "dem.tif"
                 | Some _ => ""
                 end))
           (List.filter
              (fun s1 => match sentinel1_sar_product env s1 with
                         | None => true
                         | Some _ => false
                         end)
              (handed env
                 (discovered_paths env (posixpath.join folder "catalog.json")
                    (stac_asset_name args))
                 (st_staging st))).
Proof.
  intros env raw args folder st st' r Hparse Hfolder Hmain.
  destruct (main_end env raw args folder st st' r Hparse Hfolder Hmain)
    as (dem & lg & evs & evs' & (-> & Hatt) & [_ Ht] & _ & Hev & Hw).
  destruct (views_of_loop _ _ _ Hev) as (_ & Hdl & _).
  destruct (views_of_writer _ Hw) as (_ & _ & Hwd & Hwc).
  destruct (views_of_opens (grd_opened env (posixpath.join folder "catalog.json")))
    as (_ & _ & _ & Ho4 & Ho5).
  destruct (views_of_opens
              (retrieve_opened env (posixpath.join folder "catalog.json") "item"))
    as (_ & _ & _ & Hr4 & Hr5).
  rewrite Ht, !downloads_app, !corrections_app, Ho4, Ho5, Hr4, Hr5, Hdl, Hwd, Hwc,
    Hatt.
  cbn. rewrite !app_nil_r. split; reflexivity.
Qed.

Lemma X11_one_dem_for_all_corrections_witness :
  downloads (st_trace (snd (main complete_world (cli_for (Some "/in")) initial_state)))
  = downloads (st_trace initial_state)
    ++ [(posixpath.join (out_dir (mkArgs (Some "/in") spec_bbox "PRODUCT" "/out"))
           "dem.tif",
         bbox (mkArgs (Some "/in") spec_bbox "PRODUCT" "/out"))] /\
  corrections (st_trace (snd (main complete_world (cli_for (Some "/in")) initial_state)))
  = corrections (st_trace initial_state)
    ++ map (fun s1 =>
              (s1,
               sarsen_output_file s1
                 (out_dir (mkArgs (Some "/in") spec_bbox "PRODUCT" "/out")),
               match download_and_stitch complete_world
                       (posixpath.join
                          (out_dir (mkArgs (Some "/in") spec_bbox "PRODUCT" "/out"))
                          "dem.tif")
                       (bbox (mkArgs (Some "/in") spec_bbox "PRODUCT" "/out")) with
               | None =>
                   posixpath.join
                     (out_dir (mkArgs (Some "/in") spec_bbox "PRODUCT" "/out"))
                     "dem.tif"
               | Some _ => ""
               end))
         (List.filter
            (fun s1 => match sentinel1_sar_product complete_world s1 with
                       | None => true
                       | Some _ => false
                       end)
            (handed complete_world
               (discovered_paths complete_world (posixpath.join "/in" "catalog.json")
                  (stac_asset_name (mkArgs (Some "/in") spec_bbox "PRODUCT" "/out")))
               (st_staging initial_state))).
Proof.
  apply (X11_one_dem_for_all_corrections complete_world (cli_for (Some "/in"))
           (mkArgs (Some "/in") spec_bbox "PRODUCT" "/out") "/in" initial_state
           _ (fst (main complete_world (cli_for (Some "/in")) initial_state))).
  - reflexivity.
  - reflexivity.
  - apply surjective_pairing.
Defined.

(** X12: every run with valid arguments logs that the SARSEN process is
    completed for all products, whether products failed or not and however
    the catalog assembly after it ends. *)
Theorem X12_completion_is_always_logged :
  forall (env : Env) (raw : RawCli) (args : Args) (folder : string)
         (st st' : State) (r : result unit),
    parse_args raw st = (Ok args, st) ->
    stac_catalog_folder args = Some folder ->
    main env raw st = (r, st') ->
    In (mkLog INFO "SARSEN process completed for all S1 GRD products.") (st_log st').
Proof.
  intros env raw args folder st st' r Hparse Hfolder Hmain.
  destruct (main_end env raw args folder st st' r Hparse Hfolder Hmain)
    as (dem & lg & evs & evs' & _ & [Hl _] & Hin & _).
  rewrite Hl. apply in_or_app. right. exact Hin.
Qed.

Lemma X12_completion_is_always_logged_witness :
  In (mkLog INFO "SARSEN process completed for all S1 GRD products.")
     (st_log (snd (main unreadable_catalog_world (cli_for (Some "/in")) initial_state))).
Proof.
  apply (X12_completion_is_always_logged unreadable_catalog_world
           (cli_for (Some "/in")) (mkArgs (Some "/in") spec_bbox "PRODUCT" "/out")
           "/in" initial_state _
           (fst (main unreadable_catalog_world (cli_for (Some "/in")) initial_state))).
  - reflexivity.
  - reflexivity.
  - apply surjective_pairing.
Defined.

(** ** The archive resolver *)

(** X13: starting from an empty staging directory, with a file system whose
    listing of a directory shows only entries of it, [extract_zip] on an
    archive that opens and extracts returns either the path, inside
    [temp_extract], of the top-level entry of one of this archive's members,
    or the empty path with the WARNING that no files were extracted; an
    archive whose members create no entry gets the empty path.  The
    top-level entry of a member is the first component of its name that
    zipfile keeps: empty, [.] and [..] components are dropped, so that
    [./B.SAFE/manifest.safe] lands in [temp_extract/B.SAFE]. *)
Theorem X13_extract_zip_on_empty_staging :
  forall (env : Env) (zip_file : string) (names : list string) (st : State),
    st_staging st = [] ->
    zip_archive env zip_file = ZipMembers names None ->
    makedirs env (posixpath.abspath (cwd env) "temp_extract") = None ->
    (forall d x, In x (listdir_order env d) -> In x d) ->
    exists r st',
      extract_zip env zip_file st = (Ok r, st') /\
      ((r = "" /\
        In (mkLog WARNING "No files extracted from zip file.") (st_log st')) \/
       (exists member entry,
          In member names /\ top_entry member = Some entry /\
          r = posixpath.join (posixpath.abspath (cwd env) "temp_extract") entry)) /\
      (omap top_entry names = [] -> r = "").
Proof.
  intros env zip_file names st Hempty Hzip Hmk Hlist.
  unfold extract_zip, zipfile_ZipFile, os_makedirs, extractall, os_listdir. run.
  rewrite Hzip. simpl. rewrite Hmk. simpl. rewrite Hempty.
  destruct (listdir_order env (fold_left add_entry (omap top_entry names) []))
    as [|first rest] eqn:Hl; simpl.
  - eexists _, _. split; [reflexivity|]. split; [|reflexivity].
    left. split; [reflexivity|]. simpl. apply in_or_app. right. now left.
  - eexists _, _. split; [reflexivity|].
    assert (Hin : In first (omap top_entry names)).
    { assert (H : In first (fold_left add_entry (omap top_entry names) [])).
      { apply Hlist. rewrite Hl. now left. }
      apply add_entries_from in H as [[]|H]. exact H. }
    split.
    + right. apply list_elem_of_In, list_elem_of_omap in Hin as (member & Hm & Ht).
      exists member, first. split; [now apply list_elem_of_In|]. split; [exact Ht|reflexivity].
    + intros Hnone. rewrite Hnone in Hin. destruct Hin.
Qed.

Lemma X13_extract_zip_on_empty_staging_witness :
  (exists r st',
     extract_zip dotted_archive_world "/in/b.zip" initial_state = (Ok r, st') /\
     ((r = "" /\
       In (mkLog WARNING "No files extracted from zip file.") (st_log st')) \/
      (exists member entry,
         In member ["./B.SAFE/manifest.safe"; "../B.SAFE/preview/quick-look.png"] /\
         top_entry member = Some entry /\
         r = posixpath.join (posixpath.abspath (cwd dotted_archive_world) "temp_extract")
               entry)) /\
     (omap top_entry ["./B.SAFE/manifest.safe"; "../B.SAFE/preview/quick-look.png"] = [] ->
      r = "")) /\
  fst (extract_zip dotted_archive_world "/in/b.zip" initial_state)
  = Ok "/w/temp_extract/B.SAFE".
Proof.
  split; [|vm_compute; reflexivity].
  apply (X13_extract_zip_on_empty_staging dotted_archive_world "/in/b.zip"
           ["./B.SAFE/manifest.safe"; "../B.SAFE/preview/quick-look.png"]
           initial_state).
  - reflexivity.
  - reflexivity.
  - reflexivity.
  - intros d x H. exact H.
Defined.

(** X14: nothing is ever removed from the staging directory.  [extract_zip]
    never raises, keeps every entry the directory held, and returns the empty
    path or the path of the first entry the directory listing shows; the
    whole loop over the products keeps every entry as well. *)
Theorem X14_staging_directory_only_grows :
  (forall (env : Env) (zip_file : string) (st : State),
     exists r st',
       extract_zip env zip_file st = (Ok r, st') /\
       (forall x, In x (st_staging st) -> In x (st_staging st')) /\
       (r = "" \/
        exists first rest,
          listdir_order env (st_staging st') = first :: rest /\
          r = posixpath.join (posixpath.abspath (cwd env) "temp_extract") first)) /\
  (forall (env : Env) (dem out : string) (products output_files : list string)
          (st : State),
     exists outs st',
       for_products env dem out products output_files st = (Ok outs, st') /\
       (forall x, In x (st_staging st) -> In x (st_staging st'))).
Proof.
  split.
  - intros env zip_file st.
    destruct (extract_zip_frame env zip_file st)
      as (r & lg & evs & st' & H & _ & _ & _ & _ & Hkeep & Hr).
    exists r, st'. auto.
  - intros env dem out products output_files st.
    destruct (for_products_frame env dem out products output_files st)
      as (new & lg & evs & st' & H & _ & _ & _ & _ & _ & Hkeep).
    eauto.
Qed.

(** ** The outputs of the loop *)

(** X15: each element the loop appends to [output_files] is the empty path
    or the output path, in [out_dir], of an extracted product that was handed
    to sarsen; there is one element per sarsen call and at most one per
    product. *)
Theorem X15_outputs_are_sarsen_results :
  forall (env : Env) (dem out : string) (products outs : list string)
         (st st' : State),
    for_products env dem out products [] st = (Ok outs, st') ->
    exists handed,
      sarsen_products (st_trace st') = sarsen_products (st_trace st) ++ handed /\
      length outs = length handed /\
      length outs <= length products /\
      Forall (fun o => o = "" \/
                       exists r, In r handed /\ o = sarsen_output_file r out) outs.
Proof.
  intros env dem out products outs st st' H.
  destruct (for_products_frame env dem out products [] st)
    as (new & lg & evs & st2 & Heq & [_ Ht] & _ & Hz & Hlen & Hout & _).
  destruct (sarsen_products_bound _ _ _ _ _ _ _ _ H) as (ex & Hex & Hexlen).
  rewrite Heq in H. injection H as <- <-. cbn [app].
  rewrite Ht, sarsen_products_app in Hex. apply app_inv_head in Hex. subst ex.
  exists (sarsen_products evs). rewrite Ht, sarsen_products_app.
  repeat split; auto. lia.
Qed.

Lemma X15_outputs_are_sarsen_results_witness :
  exists handed,
    sarsen_products
      (st_trace (snd (for_products three_products_world "/out/dem.tif" "/out"
                        ["/in/p1.zip"; "/in/p2.zip"; "/in/p3.zip"] [] initial_state)))
    = sarsen_products (st_trace initial_state) ++ handed /\
    length ["/out/A_sarsen_output.tif"; "/out/A_sarsen_output.tif"] = length handed /\
    length ["/out/A_sarsen_output.tif"; "/out/A_sarsen_output.tif"]
    <= length ["/in/p1.zip"; "/in/p2.zip"; "/in/p3.zip"] /\
    Forall (fun o => o = "" \/
                     exists r, In r handed /\ o = sarsen_output_file r "/out")
      ["/out/A_sarsen_output.tif"; "/out/A_sarsen_output.tif"].
Proof.
  apply (X15_outputs_are_sarsen_results three_products_world "/out/dem.tif" "/out"
           ["/in/p1.zip"; "/in/p2.zip"; "/in/p3.zip"]
           ["/out/A_sarsen_output.tif"; "/out/A_sarsen_output.tif"] initial_state).
  vm_compute. reflexivity.
Defined.

(** ** The output path without [.SAFE] *)

Lemma replace_from_absent (pat new : string) :
  forall s : string,
    contains pat s = false -> replace_from pat new 0 s = s.
Proof.
  induction s as [|c s IH]; intros H; [reflexivity|].
  cbn [contains] in H. apply orb_false_elim in H as [Hp Hc].
  cbn [replace_from]. rewrite Hp. f_equal. apply IH, Hc.
Qed.

(** X16: when the basename of the product holds no [.SAFE], a successful
    [run_sarsen] writes to a file of the product's own name in the output
    directory: nothing is replaced and no suffix is added. *)
Theorem X16_output_keeps_name_without_safe :
  forall (env : Env) (s1_file dem_file output_dir : string) (st : State),
    contains ".SAFE" (posixpath.basename s1_file) = false ->
    sentinel1_sar_product env s1_file = None ->
    terrain_correction env s1_file
      (posixpath.join output_dir (posixpath.basename s1_file)) dem_file = None ->
    exists st',
      run_sarsen env s1_file dem_file output_dir st
      = (Ok (posixpath.join output_dir (posixpath.basename s1_file)), st').
Proof.
  intros env s1_file dem_file output_dir st Hno Hprod Htc.
  assert (Hout : sarsen_output_file s1_file output_dir
                 = posixpath.join output_dir (posixpath.basename s1_file)).
  { unfold sarsen_output_file, str_replace. cbn [String.eqb].
    now rewrite replace_from_absent. }
  destruct (run_sarsen_total env s1_file dem_file output_dir st)
    as (o & st' & H & _ & _ & Hok & _).
  exists st'. rewrite H, Hok; [now rewrite Hout|exact Hprod|now rewrite Hout].
Qed.

Lemma X16_output_keeps_name_without_safe_witness :
  exists st',
    run_sarsen complete_world "/w/temp_extract/measurement.tiff" "/out/dem.tif" "/out"
      initial_state
    = (Ok (posixpath.join "/out" (posixpath.basename "/w/temp_extract/measurement.tiff")),
       st').
Proof.
  apply (X16_output_keeps_name_without_safe complete_world
           "/w/temp_extract/measurement.tiff" "/out/dem.tif" "/out" initial_state);
    reflexivity.
Defined.

(** ** Arguments and geometry *)

(** X17: [parse_args] never touches the state.  When it returns, the version
    flag was absent, the bounding box is the one given and has four
    coordinates, the output directory is the one given, the catalog folder is
    the one given or [None], the asset name is the one given or ["PRODUCT"],
    and the bounding box converts to a polygon: the unpacking in
    [bbox_to_geojson] cannot fail on it.  Otherwise it leaves with
    [SystemExit].  With the version flag the status is 0, except that it is 2
    when a [--bbox] with fewer than four values stands before the flag:
    argparse handles the options in the order they stand in.  Without the
    version flag the status is 2, for a missing [--bbox] or [--out_dir] or a
    [--bbox] that does not have four values. *)
Theorem X17_parse_args_outcomes :
  forall (raw : RawCli) (st st' : State) (r : result Args),
    parse_args raw st = (r, st') ->
    st' = st /\
    match r with
    | Ok args =>
        cli_version raw = false /\
        cli_bbox raw = Some (bbox args) /\
        length (bbox args) = 4 /\
        cli_out_dir raw = Some (out_dir args) /\
        stac_catalog_folder args = cli_stac_catalog_folder raw /\
        stac_asset_name args = default "PRODUCT" (cli_stac_asset_name raw) /\
        exists g, bbox_to_geojson (bbox args) = inr g
    | Raise e =>
        (cli_version raw = true /\
         e = SystemExit
               (match cli_bbox raw with
                | Some box =>
                    if cli_bbox_precedes_version raw && Nat.ltb (length box) 4
                    then 2 else 0
                | None => 0
                end)) \/
        (cli_version raw = false /\ e = SystemExit 2 /\
         (cli_bbox raw = None \/ cli_out_dir raw = None \/
          exists box, cli_bbox raw = Some box /\ length box <> 4))
    end.
Proof.
  intros raw st st' r. unfold parse_args.
  destruct (cli_version raw).
  { destruct (cli_bbox raw) as [box|].
    - destruct (cli_bbox_precedes_version raw && Nat.ltb (length box) 4);
        intros H; injection H as <- <-; split; [reflexivity|now left
                                                |reflexivity|now left].
    - intros H. injection H as <- <-. split; [reflexivity|]. now left. }
  destruct (cli_bbox raw) as [box|].
  2:{ intros H. injection H as <- <-. split; [reflexivity|]. right. auto. }
  destruct (cli_out_dir raw) as [out|].
  2:{ intros H. injection H as <- <-. split; [reflexivity|]. right. auto. }
  destruct (Nat.eqb (length box) 4) eqn:Hlen.
  - apply Nat.eqb_eq in Hlen. intros H. injection H as <- <-.
    split; [reflexivity|]. cbn [bbox out_dir stac_catalog_folder stac_asset_name].
    repeat split; auto.
    destruct box as [|a [|b [|c [|d [|? ?]]]]]; try discriminate.
    eexists. reflexivity.
  - apply Nat.eqb_neq in Hlen. intros H. injection H as <- <-.
    split; [reflexivity|]. right. repeat split; auto. right. right. eauto.
Qed.

Lemma X17_parse_args_outcomes_witness :
  initial_state = initial_state /\
  ((cli_version (mkRawCli true true None (Some [1%float; 2%float; 3%float]) None
                   (Some "/out")) = true /\
    SystemExit 2
    = SystemExit
        (match cli_bbox (mkRawCli true true None (Some [1%float; 2%float; 3%float])
                           None (Some "/out")) with
         | Some box =>
             if cli_bbox_precedes_version
                  (mkRawCli true true None (Some [1%float; 2%float; 3%float]) None
                     (Some "/out"))
                && Nat.ltb (length box) 4
             then 2 else 0
         | None => 0
         end)) \/
   (cli_version (mkRawCli true true None (Some [1%float; 2%float; 3%float]) None
                   (Some "/out")) = false /\
    SystemExit 2 = SystemExit 2 /\
    (cli_bbox (mkRawCli true true None (Some [1%float; 2%float; 3%float]) None
                 (Some "/out")) = None \/
     cli_out_dir (mkRawCli true true None (Some [1%float; 2%float; 3%float]) None
                    (Some "/out")) = None \/
     exists box,
       cli_bbox (mkRawCli true true None (Some [1%float; 2%float; 3%float]) None
                   (Some "/out")) = Some box /\ length box <> 4))).
Proof.
  apply (X17_parse_args_outcomes
           (mkRawCli true true None (Some [1%float; 2%float; 3%float]) None
              (Some "/out"))
           initial_state initial_state (Raise (SystemExit 2))).
  reflexivity.
Defined.

(** X18: [bbox_to_geojson] returns a geometry exactly for the lists of four
    coordinates and raises [ValueError] for every other length; given such a
    list, [create_stage_out_catalog] raises that [ValueError] before it asks
    for a file size or saves anything. *)
Theorem X18_bbox_needs_four_coordinates :
  (forall box : list float,
     (exists g, bbox_to_geojson box = inr g) <-> length box = 4) /\
  (forall box : list float,
     length box <> 4 -> exists m, bbox_to_geojson box = inl (ValueError m)) /\
  (forall (env : Env) (output_dir : string) (item : Item) (box : list float)
          (asset_name asset_path : string) (st : State),
     length box <> 4 ->
     exists m st',
       create_stage_out_catalog env output_dir item box asset_name asset_path st
       = (Raise (Exc (ValueError m)), st') /\
       st_trace st' = st_trace st).
Proof.
  split; [|split].
  - intros box. split.
    + intros [g H].
      destruct box as [|a [|b [|c [|d [|? ?]]]]]; try discriminate. reflexivity.
    + intros H.
      destruct box as [|a [|b [|c [|d [|? ?]]]]]; try discriminate.
      eexists. reflexivity.
  - intros box H.
    destruct box as [|a [|b [|c [|d [|? ?]]]]];
      try (eexists; reflexivity). now destruct H.
  - intros env output_dir item box asset_name asset_path st H.
    unfold create_stage_out_catalog.
    destruct box as [|a [|b [|c [|d [|? ?]]]]];
      try (run; eexists _, _; split; reflexivity). now destruct H.
Qed.

Lemma X18_bbox_needs_four_coordinates_witness :
  exists m st',
    create_stage_out_catalog complete_world "/out" (s1_item "S1A" "p1.zip")
      [(-118.068)%float; 34.222%float] "PRODUCT" "/out/A_sarsen_output.tif"
      initial_state
    = (Raise (Exc (ValueError m)), st') /\
    st_trace st' = st_trace initial_state.
Proof.
  apply (proj2 (proj2 X18_bbox_needs_four_coordinates) complete_world "/out"
           (s1_item "S1A" "p1.zip") [(-118.068)%float; 34.222%float] "PRODUCT"
           "/out/A_sarsen_output.tif" initial_state).
  cbn. lia.
Defined.

(** ** The output catalog *)



(** X20: [create_stage_out_catalog] saves nothing when it cannot build the
    asset.  For an item that lacks the asset it raises [KeyError] with the
    asset name and makes no external call; for an output file whose size
    cannot be read it raises the error of [os.path.getsize] after that one
    call: the catalog is not saved. *)
Theorem X20_no_catalog_without_asset_or_file :
  (forall (env : Env) (output_dir : string) (item : Item) (box : list float)
          (asset_name asset_path : string) (st : State),
     length box = 4 ->
     item_assets item !! asset_name = None ->
     exists st',
       create_stage_out_catalog env output_dir item box asset_name asset_path st
       = (Raise (Exc (KeyError asset_name)), st') /\
       st_trace st' = st_trace st) /\
  (forall (env : Env) (output_dir : string) (item : Item) (box : list float)
          (asset_name asset_path : string) (original : Asset) (x : exc) (st : State),
     length box = 4 ->
     item_assets item !! asset_name = Some original ->
     getsize env (posixpath.abspath (cwd env) asset_path) = inl x ->
     exists st',
       create_stage_out_catalog env output_dir item box asset_name asset_path st
       = (Raise (Exc x), st') /\
       st_trace st'
       = st_trace st ++ [EvGetsize (posixpath.abspath (cwd env) asset_path)] /\
       saved (st_trace st') = saved (st_trace st)).
Proof.
  split.
  - intros env output_dir item box asset_name asset_path st Hbox Hno.
    rewrite create_missing_asset by assumption. eexists. split; reflexivity.
  - intros env output_dir item box asset_name asset_path original x st Hbox Ha Hsize.
    rewrite (create_missing_file _ _ _ _ _ _ original x) by assumption.
    eexists. split; [reflexivity|]. split; [reflexivity|].
    cbn [st_trace]. rewrite saved_app. cbn. now rewrite app_nil_r.
Qed.

Lemma X20_no_catalog_without_asset_or_file_witness :
  exists st',
    create_stage_out_catalog skipping_world "/out" (bare_item "S0") spec_bbox
      "PRODUCT" "/out/A_sarsen_output.tif" initial_state
    = (Raise (Exc (KeyError "PRODUCT")), st') /\
    st_trace st' = st_trace initial_state.
Proof.
  apply (proj1 X20_no_catalog_without_asset_or_file skipping_world "/out"
           (bare_item "S0") spec_bbox "PRODUCT" "/out/A_sarsen_output.tif"
           initial_state); reflexivity.
Defined.

(** ** The output path stays in the output directory *)

Lemma rfind_sep_from_spec (p : string) :
  forall pos last : nat,
    posixpath.rfind_sep_from p pos last
    = match last_sep1 p with
      | O => last
      | S k => pos + S k
      end.
Proof.
  induction p as [|c s IH]; intros pos last; [reflexivity|].
  cbn [posixpath.rfind_sep_from last_sep1]. rewrite IH.
  destruct (last_sep1 s) as [|k]; [|lia].
  destruct (Ascii.eqb c posixpath.sep); [lia|reflexivity].
Qed.

Lemma rfind_sep1_spec (p : string) : posixpath.rfind_sep1 p = last_sep1 p.
Proof.
  unfold posixpath.rfind_sep1. rewrite rfind_sep_from_spec.
  now destruct (last_sep1 p).
Qed.

Lemma substring_all (s : string) : substring 0 (String.length s) s = s.
Proof. induction s as [|c s IH]; cbn; [reflexivity|now rewrite IH]. Qed.

(** The basename holds no separator. *)
Lemma basename_no_sep (p : string) :
  occurs posixpath.sep (posixpath.basename p) = false.
Proof.
  unfold posixpath.basename. rewrite rfind_sep1_spec.
  induction p as [|c s IH]; [reflexivity|].
  cbn [last_sep1 String.length].
  destruct (last_sep1 s) as [|k].
  - rewrite Nat.sub_0_r, substring_all in IH.
    destruct (Ascii.eqb c posixpath.sep) eqn:Hc.
    + cbn [substring Nat.sub]. rewrite Nat.sub_0_r, substring_all. exact IH.
    + rewrite Nat.sub_0_r. cbn [substring]. rewrite substring_all.
      cbn [occurs]. rewrite Ascii.eqb_sym, Hc. exact IH.
  - cbn [substring Nat.sub]. exact IH.
Qed.

Lemma occurs_append (c : ascii) (a b : string) :
  occurs c (a +:+ b) = occurs c a || occurs c b.
Proof.
  induction a as [|x a IH]; [reflexivity|].
  rewrite append_cons. cbn [occurs]. now rewrite IH, orb_assoc.
Qed.

(** Replacing by a text without [c] in a text without [c] brings no [c]. *)
Lemma replace_from_no_char (c : ascii) (old new : string) :
  occurs c new = false ->
  forall (s : string) (skip : nat),
    occurs c s = false -> occurs c (replace_from old new skip s) = false.
Proof.
  intros Hnew. induction s as [|x s IH]; intros skip Hs; [reflexivity|].
  cbn [occurs] in Hs. apply orb_false_elim in Hs as [Hx Hs].
  cbn [replace_from]. destruct skip as [|k]; [|now apply IH].
  destruct (String.prefix old (String x s)).
  - rewrite occurs_append, Hnew. now apply IH.
  - cbn [occurs]. rewrite Hx. now apply IH.
Qed.

Lemma sarsen_output_file_in_dir (s1_file output_dir : string) :
  exists name,
    occurs posixpath.sep name = false /\
    sarsen_output_file s1_file output_dir
    = if String.eqb output_dir "" || posixpath.endswith_sep output_dir
      then output_dir +:+ name
      else output_dir +:+ "/" +:+ name.
Proof.
  exists (str_replace ".SAFE" "_sarsen_output.tif" (posixpath.basename s1_file)).
  assert (Hno : occurs posixpath.sep
                  (str_replace ".SAFE" "_sarsen_output.tif"
                     (posixpath.basename s1_file)) = false).
  { unfold str_replace. cbn [String.eqb].
    apply replace_from_no_char; [reflexivity|apply basename_no_sep]. }
  split; [exact Hno|].
  unfold sarsen_output_file, posixpath.join.
  destruct (str_replace _ _ _) as [|x name]; [reflexivity|].
  cbn [occurs] in Hno. apply orb_false_elim in Hno as [Hx _].
  cbn [posixpath.startswith_sep]. rewrite Ascii.eqb_sym, Hx. reflexivity.
Qed.

(** X21: the path [run_sarsen] returns is empty or lies directly in the
    output directory: it is the output directory followed by one file name
    that holds no [/], whatever directories the path of the product goes
    through, so the product path can neither replace the output directory
    nor reach below or above it. *)
Theorem X21_output_lies_in_output_dir :
  forall (env : Env) (s1_file dem_file output_dir : string) (st st' : State)
         (o : string),
    run_sarsen env s1_file dem_file output_dir st = (Ok o, st') ->
    o = "" \/
    exists name,
      occurs "/" name = false /\
      o = if String.eqb output_dir "" || posixpath.endswith_sep output_dir
          then output_dir +:+ name
          else output_dir +:+ "/" +:+ name.
Proof.
  intros env s1_file dem_file output_dir st st' o H.
  destruct (run_sarsen_frame env s1_file dem_file output_dir st)
    as (o' & lg & evs & st2 & Heq & _ & _ & _ & _ & _ & Ho).
  rewrite Heq in H. injection H as <- _.
  destruct Ho as [->| ->]; [now left|]. right.
  apply sarsen_output_file_in_dir.
Qed.

Lemma X21_output_lies_in_output_dir_witness :
  "/out/A_sarsen_output.tif" = "" \/
  exists name,
    occurs "/" name = false /\
    "/out/A_sarsen_output.tif"
    = if String.eqb "/out" "" || posixpath.endswith_sep "/out"
      then "/out" +:+ name
      else "/out" +:+ "/" +:+ name.
Proof.
  eapply (X21_output_lies_in_output_dir complete_world "/w/temp_extract/A.SAFE"
            "/out/dem.tif" "/out" initial_state).
  vm_compute. reflexivity.
Defined.

(** ** A catalog whose item documents can all be read *)

Lemma readable_links (env : Env) (P name : string) (links : list Link) :
  readable_before env P links ->
  links_outcome env P name links = (omap (item_asset_path env P name) links, None) /\
  links_opened env P links = map (item_document P) (List.filter is_item_link links).
Proof.
  induction links as [|l rest IH]; intros Hread; [split; reflexivity|].
  destruct (IH (readable_before_tail _ _ _ _ Hread)) as [IH1 IH2].
  cbn [links_outcome links_opened omap list_omap List.filter].
  unfold item_asset_path at 1. unfold is_item_link at 1.
  destruct (String.eqb (link_rel l) "item") eqn:Hrel; [|split; assumption].
  apply String.eqb_eq in Hrel.
  destruct (Hread l (or_introl eq_refl) Hrel) as [i Hi]. rewrite Hi, IH1, IH2.
  destruct (item_assets i !! name); split; reflexivity.
Qed.

(** X22: when the catalog and every item document it links can be read,
    [get_s1_grd_path] returns, in link order, the resolved asset path of
    every item that has the asset, and of no other; it opens the catalog and
    then each item document once, in link order, and logs no error. *)
Theorem X22_readable_catalog_gives_every_asset_path :
  forall (env : Env) (P name : string) (catalog : Catalog) (st : State),
    read_catalog env P = inr catalog ->
    readable_before env P (cat_links catalog) ->
    exists st',
      get_s1_grd_path env P name st
      = (Ok (omap (item_asset_path env P name) (cat_links catalog)), st') /\
      st_trace st'
      = st_trace st
        ++ map EvOpen
             (P :: map (item_document P) (List.filter is_item_link (cat_links catalog))) /\
      (forall msg, In (mkLog ERROR msg) (st_log st') -> In (mkLog ERROR msg) (st_log st)).
Proof.
  intros env P name catalog st Hcat Hread.
  destruct (readable_links env P name _ Hread) as [Hout Hopen].
  rewrite get_s1_grd_path_state. eexists. split; [|split].
  - unfold discovered_paths. now rewrite Hcat, Hout.
  - cbn [st_trace]. unfold grd_opened. now rewrite Hcat, Hopen.
  - cbn [st_log]. intros msg Hin. apply in_app_or in Hin as [Hin|Hin]; [exact Hin|].
    exfalso. unfold grd_log in Hin. rewrite Hcat in Hin.
    destruct (cat_links catalog) as [|l ls] eqn:Hl.
    + cbn in Hin. destruct Hin as [H|[H|[H|[]]]]; discriminate.
    + rewrite Hout in Hin. cbn [snd] in Hin. rewrite app_nil_r in Hin.
      apply in_app_or in Hin as [[H|[]]|Hin]; [discriminate|].
      apply in_app_or in Hin as [Hin|[H|[]]]; [|discriminate].
      clear -Hin. induction (l :: ls) as [|x xs IH]; [destruct Hin|].
      cbn [links_warnings] in Hin.
      destruct (String.eqb (link_rel x) "item"); [|auto].
      destruct (read_item env (item_document P x)) as [e|i]; [destruct Hin|].
      destruct (item_assets i !! name); [auto|].
      destruct Hin as [H|Hin]; [discriminate|auto].
Qed.

Lemma X22_readable_catalog_gives_every_asset_path_witness :
  exists st',
    get_s1_grd_path skipping_world "/in/catalog.json" "PRODUCT" initial_state
    = (Ok (omap (item_asset_path skipping_world "/in/catalog.json" "PRODUCT")
             [mkLink "item" "./i0.json"; mkLink "item" "./i1.json"]), st') /\
    st_trace st'
    = st_trace initial_state
      ++ map EvOpen
           ("/in/catalog.json"
            :: map (item_document "/in/catalog.json")
                 (List.filter is_item_link
                    [mkLink "item" "./i0.json"; mkLink "item" "./i1.json"])) /\
    (forall msg, In (mkLog ERROR msg) (st_log st') ->
                 In (mkLog ERROR msg) (st_log initial_state)).
Proof.
  apply (X22_readable_catalog_gives_every_asset_path skipping_world
           "/in/catalog.json" "PRODUCT"
           (input_catalog [mkLink "item" "./i0.json"; mkLink "item" "./i1.json"])
           initial_state).
  - reflexivity.
  - intros l [<-|[<-|[]]] _; eexists; reflexivity.
Defined.
(** ** The guarded functions, failure by failure *)






(** * The claims *)

(** C1 (the code departs from it): the claim says that [output_files] holds
    only non-empty paths, a product whose terrain correction fails
    contributing nothing.  [main] appends whatever [run_sarsen] returns: in a
    world with one product whose archive extracts and on which sarsen fails,
    the loop ends with [output_files = [""]], after logging the failure. *)
Theorem C1_failed_correction_leaves_empty_path :
  discovered_paths failing_correction_world "/in/catalog.json" "PRODUCT" = ["/in/p1.zip"] /\
  exists st',
    for_products failing_correction_world "/out/dem.tif" "/out" ["/in/p1.zip"] []
      initial_state
    = (Ok [""], st') /\
    sarsen_products (st_trace st') = ["/w/temp_extract/A.SAFE"] /\
    logged ERROR st'.
Proof.
  split; [reflexivity|].
  eexists. split; [vm_compute; reflexivity|]. split; [reflexivity|].
  exists "Error running SARsen: not a Sentinel-1 product". cbn. auto.
Qed.




(** C3: [get_s1_grd_path] resolves an item link against the directory of the
    catalog document, and the asset href against the directory of the item
    document so resolved: that path is among the paths returned whenever the
    item links before it can be read.  The working directory plays no part.
    A catalog at [/a/b/catalog.json] linking [../c/item.json], whose asset
    href is [./product.zip], gives [/a/c/product.zip]. *)
Theorem C3_link_resolution_is_directory_relative :
  (forall (env : Env) (P name : string) (catalog : Catalog)
          (pre post : list Link) (link : Link) (item : Item) (a : Asset)
          (st : State),
     read_catalog env P = inr catalog ->
     cat_links catalog = pre ++ link :: post ->
     readable_before env P pre ->
     link_rel link = "item" ->
     read_item env
       (posixpath.normpath
          (posixpath.join (posixpath.dirname P) (link_target link))) = inr item ->
     item_assets item !! name = Some a ->
     exists paths st',
       get_s1_grd_path env P name st = (Ok paths, st') /\
       In (posixpath.normpath
             (posixpath.join
                (posixpath.dirname
                   (posixpath.normpath
                      (posixpath.join (posixpath.dirname P) (link_target link))))
                (asset_href a)))
          paths) /\
  (forall (env : Env) (dir P name : string) (st : State),
     fst (get_s1_grd_path (with_cwd dir env) P name st)
     = fst (get_s1_grd_path env P name st)) /\
  fst (get_s1_grd_path nested_world "/a/b/catalog.json" "PRODUCT" initial_state)
  = Ok ["/a/c/product.zip"].
Proof.
  split; [|split].
  - intros env P name catalog pre post link item a st Hcat Hlinks Hpre Hrel Hitem Ha.
    destruct (get_s1_grd_path_outcome env P name st) as (st' & H & _).
    exists (discovered_paths env P name), st'. split; [exact H|].
    unfold discovered_paths. rewrite Hcat, Hlinks, (links_outcome_app _ _ _ _ _ Hpre).
    cbn [fst]. apply in_or_app. right.
    cbn [links_outcome]. rewrite Hrel. cbn [String.eqb Ascii.eqb Bool.eqb].
    fold (item_document P link) in Hitem. rewrite Hitem, Ha. left. reflexivity.
  - intros env dir P name st.
    destruct (get_s1_grd_path_outcome (with_cwd dir env) P name st) as (s1 & H1 & _).
    destruct (get_s1_grd_path_outcome env P name st) as (s2 & H2 & _).
    rewrite H1, H2. cbn [fst]. now rewrite discovered_paths_with_cwd.
  - vm_compute. reflexivity.
Qed.

Lemma C3_link_resolution_is_directory_relative_witness :
  exists paths st',
    get_s1_grd_path nested_world "/a/b/catalog.json" "PRODUCT" initial_state
    = (Ok paths, st') /\
    In "/a/c/product.zip" paths.
Proof.
  apply (proj1 C3_link_resolution_is_directory_relative nested_world
           "/a/b/catalog.json" "PRODUCT"
           (input_catalog [mkLink "root" "./catalog.json"; mkLink "item" "../c/item.json"])
           [mkLink "root" "./catalog.json"] [] (mkLink "item" "../c/item.json")
           (s1_item "S1A" "./product.zip") (product_asset "./product.zip")
           initial_state).
  - reflexivity.
  - reflexivity.
  - intros l [<-|[]] Hrel. discriminate.
  - reflexivity.
  - reflexivity.
  - reflexivity.
Defined.

(** C4: for every four coordinates, [bbox_to_geojson] returns the Polygon
    whose one ring is SW, SE, NE, NW, SW, closed on its first vertex; for the
    bounding box [-118.068, 34.222, -118.058, 34.228] the ring starts and ends
    at [(-118.068, 34.222)]; and when [create_stage_out_catalog] returns, the
    output item holds the bounding box it was given and this polygon of it. *)
Theorem C4_bbox_to_geojson_closed_ring :
  (forall min_lon min_lat max_lon max_lat : float,
     bbox_to_geojson [min_lon; min_lat; max_lon; max_lat]
     = inr (mkGeometry "Polygon"
              [[ [min_lon; min_lat]; [max_lon; min_lat]; [max_lon; max_lat];
                 [min_lon; max_lat]; [min_lon; min_lat] ]])) /\
  (forall (min_lon min_lat max_lon max_lat : float),
     exists g ring,
       bbox_to_geojson [min_lon; min_lat; max_lon; max_lat] = inr g /\
       geo_coordinates g = [ring] /\ length ring = 5 /\
       head ring = Some [min_lon; min_lat] /\ last ring = head ring) /\
  (exists g rest,
     bbox_to_geojson spec_bbox = inr g /\
     geo_coordinates g
     = [ [(-118.068)%float; 34.222%float] :: rest
           ++ [[(-118.068)%float; 34.222%float]] ] /\
     length rest = 3) /\
  (forall (env : Env) (output_dir : string) (item : Item)
          (min_lon min_lat max_lon max_lat : float)
          (asset_name asset_path : string) (original : Asset) (size : Z)
          (st : State),
     posixpath.isabs (cwd env) = true ->
     item_assets item !! asset_name = Some original ->
     getsize env (posixpath.abspath (cwd env) asset_path) = inr size ->
     (forall c, catalog_save env c = None) ->
     exists catalog out_item st',
       create_stage_out_catalog env output_dir item
         [min_lon; min_lat; max_lon; max_lat] asset_name asset_path st
       = (Ok catalog, st') /\
       cat_items catalog = [out_item] /\
       item_bbox out_item = Some [min_lon; min_lat; max_lon; max_lat] /\
       item_geometry out_item
       = Some (mkGeometry "Polygon"
                 [[ [min_lon; min_lat]; [max_lon; min_lat]; [max_lon; max_lat];
                    [min_lon; max_lat]; [min_lon; min_lat] ]])).
Proof.
  split; [reflexivity|]. split; [|split].
  - intros. eexists _, _. repeat split.
  - eexists _, [_; _; _]. repeat split.
  - intros env output_dir item a b c d asset_name asset_path original size st
      Hcwd Hasset Hsize Hsave.
    destruct (create_stage_out_catalog_ok env output_dir item [a; b; c; d]
                asset_name asset_path original size st eq_refl Hasset Hsize Hsave)
      as (catalog & out_item & g & st' & H & Hitems & Hg & Hbox & Hgeo & _).
    exists catalog, out_item, st'. repeat split; try assumption.
    rewrite Hgeo. cbn in Hg. injection Hg as <-. reflexivity.
Qed.

Lemma C4_bbox_to_geojson_closed_ring_witness :
  exists catalog out_item st',
    create_stage_out_catalog complete_world "/out" (s1_item "S1A" "p1.zip")
      [(-118.068)%float; 34.222%float; (-118.058)%float; 34.228%float]
      "PRODUCT" "/out/A_sarsen_output.tif" initial_state
    = (Ok catalog, st') /\
    cat_items catalog = [out_item] /\
    item_bbox out_item
    = Some [(-118.068)%float; 34.222%float; (-118.058)%float; 34.228%float] /\
    item_geometry out_item
    = Some (mkGeometry "Polygon"
              [[ [(-118.068)%float; 34.222%float];
                 [(-118.058)%float; 34.222%float];
                 [(-118.058)%float; 34.228%float];
                 [(-118.068)%float; 34.228%float];
                 [(-118.068)%float; 34.222%float] ]]).
Proof.
  apply (proj2 (proj2 (proj2 C4_bbox_to_geojson_closed_ring)) complete_world "/out"
           (s1_item "S1A" "p1.zip") _ _ _ _ "PRODUCT" "/out/A_sarsen_output.tif"
           (product_asset "p1.zip") 1234%Z initial_state).
  - reflexivity.
  - reflexivity.
  - reflexivity.
  - intros c. reflexivity.
Defined.




(** C6, as stated, fails: when the second of two item documents cannot be
    read, [get_s1_grd_path] catches the error and returns the list as far as
    it was built, here the path from the first item: a partial result. *)
Lemma C6_counterexample :
  read_item broken_item_world "/in/i2.json" = inl (no_such_file "/in/i2.json") /\
  fst (get_s1_grd_path broken_item_world "/in/catalog.json" "PRODUCT" initial_state)
  = Ok ["/in/p1.zip"].
Proof. split; [reflexivity|]. vm_compute. reflexivity. Qed.

(** C6, amended: [get_s1_grd_path] never raises.  When the catalog document
    cannot be read or parsed it logs the error and returns the empty list.
    When an item document cannot be read or parsed it logs the error and
    returns the paths gathered from the item links before that one. *)
Theorem C6_reader_returns_what_it_gathered :
  forall (env : Env) (P name : string) (st : State),
  exists paths st',
    get_s1_grd_path env P name st = (Ok paths, st') /\
    (forall e, read_catalog env P = inl e -> paths = [] /\ logged ERROR st') /\
    (forall catalog pre link post e,
       read_catalog env P = inr catalog ->
       cat_links catalog = pre ++ link :: post ->
       readable_before env P pre ->
       link_rel link = "item" ->
       read_item env
         (posixpath.normpath
            (posixpath.join (posixpath.dirname P) (link_target link))) = inl e ->
       paths = fst (links_outcome env P name pre) /\ logged ERROR st').
Proof.
  intros env P name st.
  destruct (get_s1_grd_path_outcome env P name st) as (st' & H & Hcat & Hitem).
  exists (discovered_paths env P name), st'. split; [exact H|]. split.
  - intros e He. split; [|eauto]. unfold discovered_paths. now rewrite He.
  - intros catalog pre link post e Hc Hlinks Hpre Hrel Hread.
    assert (Hout : links_outcome env P name (cat_links catalog)
                   = (fst (links_outcome env P name pre), Some e)).
    { rewrite Hlinks, (links_outcome_app _ _ _ _ _ Hpre).
      cbn [links_outcome]. rewrite Hrel. cbn [String.eqb Ascii.eqb Bool.eqb].
      fold (item_document P link) in Hread. rewrite !Hread. cbn [fst snd].
      now rewrite app_nil_r. }
    split.
    + unfold discovered_paths. now rewrite Hc, Hout.
    + apply (Hitem catalog e Hc). now rewrite Hout.
Qed.

Lemma C6_reader_returns_what_it_gathered_witness :
  exists paths st',
    get_s1_grd_path broken_item_world "/in/catalog.json" "PRODUCT" initial_state
    = (Ok paths, st') /\
    paths = ["/in/p1.zip"] /\ logged ERROR st'.
Proof.
  destruct (C6_reader_returns_what_it_gathered broken_item_world
              "/in/catalog.json" "PRODUCT" initial_state)
    as (paths & st' & H & _ & Hitem).
  exists paths, st'. split; [exact H|].
  apply (Hitem (input_catalog [mkLink "item" "./i1.json"; mkLink "item" "./i2.json"])
           [mkLink "item" "./i1.json"] (mkLink "item" "./i2.json") []
           (no_such_file "/in/i2.json")).
  - reflexivity.
  - reflexivity.
  - intros l [<-|[]] _. eexists. reflexivity.
  - reflexivity.
  - reflexivity.
Defined.

(** C7: the failure of one product does not end the loop.  For every list of
    products the loop of [main] returns without raising and opens the archive
    of every product, in order, whatever failed before.  It calls
    [run_sarsen] exactly for the products whose [extract_zip] gave a
    non-empty path, with that path, and [output_files] gains exactly what
    these calls return, in order.  Neither [extract_zip] nor [run_sarsen]
    raises, and a product acts on those after it only through the staging
    directory it leaves.  With three products of which the second archive
    cannot be opened, the first and the third are extracted and a correction
    follows each, of the entry the staging directory lists first; so it is
    when the correction of the first product fails as well. *)
Theorem C7_products_are_isolated :
  (forall (env : Env) (dem out : string) (products output_files : list string)
          (st : State),
     exists st',
       for_products env dem out products output_files st
       = (Ok (output_files
              ++ map (fun r => corrected_path env r dem out)
                   (handed env products (st_staging st))),
          st') /\
       zip_opened (st_trace st') = zip_opened (st_trace st) ++ products /\
       sarsen_products (st_trace st')
       = sarsen_products (st_trace st) ++ handed env products (st_staging st)) /\
  (forall (env : Env) (zip_file : string) (st : State),
     exists st',
       extract_zip env zip_file st
       = (Ok (fst (extraction env zip_file (st_staging st))), st') /\
       st_staging st' = snd (extraction env zip_file (st_staging st))) /\
  (forall (env : Env) (s1 dem out : string) (st : State),
     exists st',
       run_sarsen env s1 dem out st = (Ok (corrected_path env s1 dem out), st') /\
       st_staging st' = st_staging st) /\
  (zip_archive three_products_world "/in/p2.zip"
   = ZipUnreadable (LibraryError "File is not a zip file") /\
   exists st',
     for_products three_products_world "/out/dem.tif" "/out"
       ["/in/p1.zip"; "/in/p2.zip"; "/in/p3.zip"] [] initial_state
     = (Ok ["/out/A_sarsen_output.tif"; "/out/A_sarsen_output.tif"], st') /\
     zip_opened (st_trace st') = ["/in/p1.zip"; "/in/p2.zip"; "/in/p3.zip"] /\
     sarsen_products (st_trace st')
     = ["/w/temp_extract/A.SAFE"; "/w/temp_extract/A.SAFE"] /\
     st_staging st' = ["A.SAFE"; "C.SAFE"] /\
     In (mkLog ERROR "Error extracting zip file for /in/p2.zip") (st_log st')) /\
  (exists st',
     for_products mixed_failures_world "/out/dem.tif" "/out"
       ["/in/p1.zip"; "/in/p2.zip"; "/in/p3.zip"] [] initial_state
     = (Ok [""; "/out/C_sarsen_output.tif"], st') /\
     zip_opened (st_trace st') = ["/in/p1.zip"; "/in/p2.zip"; "/in/p3.zip"] /\
     sarsen_products (st_trace st')
     = ["/w/temp_extract/A.SAFE"; "/w/temp_extract/C.SAFE"] /\
     In (mkLog ERROR "Error running SARsen: not a Sentinel-1 product") (st_log st') /\
     In (mkLog ERROR "Error extracting zip file for /in/p2.zip") (st_log st')).
Proof.
  split; [|split; [|split; [|split]]].
  - intros env dem out products output_files st.
    destruct (for_products_result env dem out products output_files st)
      as (st' & H & Hs & _).
    destruct (for_products_total env dem out products output_files st)
      as (new & ex & st2 & H2 & Hz & _).
    rewrite H in H2. injection H2 as _ <-.
    exists st'. split; [exact H|]. split; [exact Hz|exact Hs].
  - intros env zip_file st.
    destruct (extract_zip_result env zip_file st) as (st' & H & Hst & _). eauto.
  - intros env s1 dem out st.
    destruct (run_sarsen_result env s1 dem out st) as (st' & H & Hst & _). eauto.
  - split; [reflexivity|].
    eexists. split; [vm_compute; reflexivity|].
    split; [reflexivity|]. split; [reflexivity|]. split; [reflexivity|].
    cbn. auto 10.
  - eexists. split; [vm_compute; reflexivity|].
    split; [reflexivity|]. split; [reflexivity|]. cbn. auto 12.
Qed.

(** C8 (the code departs from it): the claim says [extract_zip] returns the
    empty result for an archive with no entry, never a path the archive did
    not contribute.  [extract_zip] lists the staging directory, not the
    archive: after an archive that holds [A.SAFE], a valid archive with no
    entry is answered with the path of [A.SAFE]. *)
Theorem C8_stale_entry_is_returned :
  zip_archive empty_archive_world "/in/empty.zip" = ZipMembers [] None /\
  fst ((extract_zip empty_archive_world "/in/a.zip" ;;
        extract_zip empty_archive_world "/in/empty.zip") initial_state)
  = Ok "/w/temp_extract/A.SAFE" /\
  fst (extract_zip empty_archive_world "/in/empty.zip" initial_state) = Ok "".
Proof. repeat split; vm_compute; reflexivity. Qed.

(** C9, as stated, fails: [str.replace] rewrites every [.SAFE] of the
    basename, not its suffix alone.  For the basename [a.SAFE.SAFE] the
    output is not the stem [a.SAFE] followed by [_sarsen_output.tif]. *)
Lemma C9_counterexample :
  posixpath.basename "/w/temp_extract/a.SAFE.SAFE" = "a.SAFE" +:+ ".SAFE" /\
  fst (run_sarsen complete_world "/w/temp_extract/a.SAFE.SAFE" "/out/dem.tif" "/out"
         initial_state)
  = Ok "/out/a_sarsen_output.tif_sarsen_output.tif" /\
  "/out/a_sarsen_output.tif_sarsen_output.tif"
  <> posixpath.join "/out" ("a.SAFE" +:+ "_sarsen_output.tif").
Proof.
  split; [reflexivity|]. split; [vm_compute; reflexivity|].
  vm_compute. discriminate.
Qed.

(** C9, amended: for a product whose basename is a stem followed by [.SAFE],
    the stem holding no [.SAFE] itself, a successful [run_sarsen] returns the
    join of the output directory and the stem followed by
    [_sarsen_output.tif]. *)
Theorem C9_output_path_of_safe_product :
  forall (env : Env) (s1_file dem_file output_dir stem : string) (st : State),
    posixpath.basename s1_file = stem +:+ ".SAFE" ->
    contains ".SAFE" stem = false ->
    sentinel1_sar_product env s1_file = None ->
    terrain_correction env s1_file
      (posixpath.join output_dir (stem +:+ "_sarsen_output.tif")) dem_file = None ->
    exists st',
      run_sarsen env s1_file dem_file output_dir st
      = (Ok (posixpath.join output_dir (stem +:+ "_sarsen_output.tif")), st').
Proof.
  intros env s1_file dem_file output_dir stem st Hbase Hstem Hprod Htc.
  assert (Hout : sarsen_output_file s1_file output_dir
                 = posixpath.join output_dir (stem +:+ "_sarsen_output.tif")).
  { unfold sarsen_output_file. now rewrite Hbase, str_replace_stem. }
  destruct (run_sarsen_total env s1_file dem_file output_dir st)
    as (o & st' & H & _ & _ & Hok & _).
  exists st'. rewrite H, Hok; [now rewrite Hout|exact Hprod|now rewrite Hout].
Qed.

Lemma C9_output_path_of_safe_product_witness :
  exists st',
    run_sarsen complete_world "/w/temp_extract/S1A_IW_GRDH.SAFE" "/out/dem.tif"
      "/out" initial_state
    = (Ok (posixpath.join "/out" ("S1A_IW_GRDH" +:+ "_sarsen_output.tif")), st').
Proof.
  apply (C9_output_path_of_safe_product complete_world
           "/w/temp_extract/S1A_IW_GRDH.SAFE" "/out/dem.tif" "/out" "S1A_IW_GRDH"
           initial_state).
  - reflexivity.
  - reflexivity.
  - reflexivity.
  - reflexivity.
Defined.

(** C10: when [--stac_catalog_folder] is not given, the parser accepts the
    command line and leaves the folder [None], and [main] raises the
    [TypeError] of the path join; the state is the one it started in:
    nothing was read, downloaded, extracted or logged. *)
Theorem C10_missing_folder_raises_type_error :
  forall (env : Env) (raw : RawCli) (box : list float) (out : string) (st : State),
    cli_version raw = false ->
    cli_stac_catalog_folder raw = None ->
    cli_bbox raw = Some box ->
    length box = 4 ->
    cli_out_dir raw = Some out ->
    (exists args, parse_args raw st = (Ok args, st) /\
                  stac_catalog_folder args = None) /\
    main env raw st
    = (Raise (Exc (TypeError
         "expected str, bytes or os.PathLike object, not NoneType")), st).
Proof.
  intros env raw box out st Hv Hf Hb Hlen Ho.
  assert (Hparse : parse_args raw st
                   = (Ok (mkArgs None box (default "PRODUCT" (cli_stac_asset_name raw)) out),
                      st)).
  { unfold parse_args. rewrite Hv, Hb, Ho, Hf.
    apply Nat.eqb_eq in Hlen. now rewrite Hlen. }
  split; [eexists; split; [exact Hparse|reflexivity]|].
  unfold main, logtime. unfold bind at 1. unfold bind at 1.
  rewrite Hparse. reflexivity.
Qed.

Lemma C10_missing_folder_raises_type_error_witness :
  (exists args, parse_args (cli_for None) initial_state = (Ok args, initial_state) /\
                stac_catalog_folder args = None) /\
  main complete_world (cli_for None) initial_state
  = (Raise (Exc (TypeError
       "expected str, bytes or os.PathLike object, not NoneType")), initial_state).
Proof.
  apply (C10_missing_folder_raises_type_error complete_world (cli_for None)
           spec_bbox "/out" initial_state); reflexivity.
Defined.

